(** * Paint property binders (mbgl/style/paint_property_binder.hpp)

    A shallow embedding of the attribute encoder, the three binder
    strategies and the interpolation uniform, followed by the properties
    proved about them.

    Number model.  Vertex attribute data and colour components are IEEE
    binary32 values, taken from the standard library's [SpecFloat]
    instantiated at precision 24 and maximal exponent 128, so that the
    colour packing is computed with the rounding and truncation the C++
    code performs.  Zoom levels and interpolation factors are real
    numbers: the interpolation contract is stated with a real power, and
    nothing proved here depends on the rounding of zoom arithmetic. *)

From Stdlib Require Import ZArith List Bool Lia Floats.SpecFloat.
From Stdlib Require Import QArith Qround Qpower Reals Lra.
From Stdlib Require String.
Import ListNotations.

(* ================================================================= *)
(** ** binary32 *)

Module Float32.

Definition prec : Z := 24.
Definition emax : Z := 128.

(** C++ [float]. *)
Definition float : Type := spec_float.

Definition valid (x : float) : bool := valid_binary prec emax x.

Definition mul (x y : float) : float := SFmul prec emax x y.
Definition leb (x y : float) : bool := SFleb x y.

(** The binary32 value nearest to [m * 2^e] (ties to even). *)
Definition dyadic (m e : Z) : float := binary_normalize prec emax m e false.

(** [static_cast<float>(n)] for an integer [n]. *)
Definition of_int (n : Z) : float := dyadic n 0.

Definition zero : float := S754_zero false.
Definition one : float := of_int 1.

(** The integer part of a float, fraction discarded (towards zero);
    nothing for NaN and the infinities. *)
Definition trunc (x : float) : option Z :=
  match x with
  | S754_zero _ => Some 0%Z
  | S754_finite s m e =>
      Some (cond_Zopp s (match e with
                         | Zneg k => Z.shiftr (Zpos m) (Zpos k)
                         | _ => Z.shiftl (Zpos m) e
                         end))
  | _ => None
  end.

(** [static_cast<uint16_t>(x)]: the truncated value when [uint16_t] can
    represent it; otherwise the conversion has no defined result. *)
Definition to_uint16 (x : float) : option Z :=
  match trunc x with
  | Some z => if ((0 <=? z) && (z <=? 65535))%Z then Some z else None
  | None => None
  end.

(** The float is an integer, and which one. *)
Definition to_int_exact (x : float) : option Z :=
  match x with
  | S754_zero _ => Some 0%Z
  | S754_finite s m e =>
      match e with
      | Zneg k =>
          if (Z.land (Zpos m) (Z.ones (Zpos k)) =? 0)%Z
          then Some (cond_Zopp s (Z.shiftr (Zpos m) (Zpos k)))
          else None
      | _ => Some (cond_Zopp s (Z.shiftl (Zpos m) e))
      end
  | _ => None
  end.

End Float32.

Import Float32.

(* ================================================================= *)
(** ** Attribute encoder *)

(** [std::array<float, N>]: the list of its [N] elements. *)
Definition FloatArray : Type := list float.

(** [mbgl::Color]: four float components. *)
Record Color : Type := mkColor { r : float; g : float; b : float; a : float }.

(** [attributeValue(float v)] *)
Definition attributeValue_float (v : float) : FloatArray := [v].

(** The literal [255] in [color.r * 255], converted to [float]. *)
Definition f255 : float := of_int 255.

(** [static_cast<uint16_t>(c * 255)] *)
Definition scaled (c : float) : option Z := to_uint16 (mul c f255).

(** [attributeValue(const Color&)].  The two casts per element are
    combined in [int]: at most [65535 * 256 + 65535], which a 32-bit
    [int] holds.  The result is absent when one of the four casts to
    [uint16_t] has no defined result. *)
Definition attributeValue_Color (color : Color) : option FloatArray :=
  match scaled (r color), scaled (g color), scaled (b color), scaled (a color) with
  | Some qr, Some qg, Some qb, Some qa =>
      Some [ of_int (qr * 256 + qg) ; of_int (qb * 256 + qa) ]
  | _, _, _, _ => None
  end.

(** [zoomInterpolatedAttributeValue(min, max)]: elements [0 .. N-1] are
    those of [min], elements [N .. 2N-1] those of [max]. *)
Definition zoomInterpolatedAttributeValue (min max : FloatArray) : FloatArray :=
  min ++ max.

(** The two halves of a doubled-width value: the first [N] and the last
    [N] of its [2N] elements. *)
Definition minHalf (value : FloatArray) : FloatArray :=
  firstn (Nat.div2 (length value)) value.

Definition maxHalf (value : FloatArray) : FloatArray :=
  skipn (Nat.div2 (length value)) value.


(* ================================================================= *)
(** ** Collaborators declared outside this header *)

(** [Range<T>] *)
Module Range.
Record t (T : Type) : Type := mk { min : T; max : T }.
Arguments mk {T} _ _.
Arguments min {T} _.
Arguments max {T} _.
End Range.

(** A vertex is the array of floats of its single attribute
    ([gl::detail::Vertex<A>]); a vertex vector is the sequence of the
    vertices appended so far. *)
Definition Vertex : Type := FloatArray.
Definition VertexVector : Type := list Vertex.
Definition vertexSize (v : VertexVector) : nat := length v.

(** The types this header only names, and the graphics context's buffer
    creation.  [createVertexBuffer] receives the vertex vector as an
    rvalue: besides the buffer and the context's new state it returns
    what it leaves of the vector. *)
Class Collaborators : Type := {
  GeometryTileFeature : Type;
  InnerStops : Type;
  gl_Context : Type;
  VertexBuffer : Type;
  createVertexBuffer : gl_Context -> VertexVector -> gl_Context * VertexBuffer * VertexVector
}.

(** What a binder needs of its property [P] with value type [T] and
    attribute [A]: the attribute's width, the encoder overload chosen for
    [T], and [PaintPropertyStatistics::add<P>] for a value and for a
    range. *)
Class PaintProperty (T : Type) : Type := {
  Dimensions : nat;
  attributeValue : T -> FloatArray;
  Statistics : Type;
  add : Statistics -> T -> Statistics;
  add_range : Statistics -> Range.t T -> Statistics
}.

(** Modelled from the spec: [SourceFunction<T>], which is declared
    outside this header.  Evaluating it for a feature either finds a value
    in the feature's data or finds none, and then resolves to the default
    passed in. *)
Module SourceFunction.
Record t `{Collaborators} (T : Type) : Type := mk {
  lookup : GeometryTileFeature -> option T
}.
Arguments mk {_ T} _.
Arguments lookup {_ T} _ _.

Definition evaluate `{Collaborators} {T : Type}
    (fn : t T) (feature : GeometryTileFeature) (defaultValue : T) : T :=
  match lookup fn feature with
  | Some v => v
  | None => defaultValue
  end.
End SourceFunction.

(** [CompositeFunction<T>], declared outside this header, through the
    members used here: its declared interpolation base, the covering
    ranges of a zoom, and the evaluation over an inner stop bracket. *)
Module CompositeFunction.
Record t `{Collaborators} (T : Type) : Type := mk {
  base : R;
  coveringRanges : R -> Range.t R * Range.t InnerStops;
  evaluate : Range.t InnerStops -> GeometryTileFeature -> T -> Range.t T
}.
Arguments mk {_ T} _ _ _.
Arguments base {_ T} _.
Arguments coveringRanges {_ T} _ _.
Arguments evaluate {_ T} _ _ _ _.
End CompositeFunction.

(** Modelled from the spec: [PossiblyEvaluatedPropertyValue<T>], the
    tagged union of a constant, a source function and a composite
    function, with [isConstant], [constant] and [constantOr]. *)
Inductive PossiblyEvaluatedPropertyValue `{Collaborators} (T : Type) : Type :=
  | Constant (c : T)
  | SourceFn (fn : SourceFunction.t T)
  | CompositeFn (fn : CompositeFunction.t T).
Arguments Constant {_ T} _.
Arguments SourceFn {_ T} _.
Arguments CompositeFn {_ T} _.

Definition isConstant `{Collaborators} {T : Type}
    (v : PossiblyEvaluatedPropertyValue T) : bool :=
  match v with Constant _ => true | _ => false end.

Definition constant `{Collaborators} {T : Type}
    (v : PossiblyEvaluatedPropertyValue T) : option T :=
  match v with Constant c => Some c | _ => None end.

Definition constantOr `{Collaborators} {T : Type}
    (v : PossiblyEvaluatedPropertyValue T) (t : T) : T :=
  match v with Constant c => c | _ => t end.

(** Modelled from the spec: [util::interpolationFactor], declared
    outside this header.  Linear for base 1, exponential otherwise. *)
Definition util_interpolationFactor (base : R) (range : Range.t R) (z : R) : R :=
  if Req_dec_T base 1
  then ((z - Range.min range) / (Range.max range - Range.min range))%R
  else ((Rpower base (z - Range.min range) - 1)
        / (Rpower base (Range.max range - Range.min range) - 1))%R.

(** [Attribute::Binding]: a constant value, or a reference into a vertex
    buffer ([Attribute::variableBinding(buffer, attributeIndex,
    attributeSize)]). *)
Inductive AttributeBinding `{Collaborators} : Type :=
  | ConstantBinding (value : FloatArray)
  | VariableBinding (buffer : VertexBuffer) (attributeIndex attributeSize : nat).

(** The loop [for (i = vertexVector.vertexSize(); i < length; ++i)
    vertexVector.emplace_back(v)]: [n] is the number of iterations left. *)
Fixpoint emplace_back_loop (n : nat) (vertexVector : VertexVector) (v : Vertex)
    : VertexVector :=
  match n with
  | O => vertexVector
  | S n' => emplace_back_loop n' (vertexVector ++ [v]) v
  end.

Definition emplace_back_until (length : nat) (vertexVector : VertexVector) (v : Vertex)
    : VertexVector :=
  emplace_back_loop (length - vertexSize vertexVector) vertexVector v.

(* ================================================================= *)
(** ** The three binder strategies *)

Module ConstantPaintPropertyBinder.
Section Binder.
Context `{Collaborators} {T : Type} `{PaintProperty T}.

Record t : Type := mk { constant : T }.

Definition populateVertexVector (b : t) (feature : GeometryTileFeature)
    (length : nat) (statistics : Statistics) : t * Statistics :=
  (b, statistics).

Definition upload (b : t) (context : gl_Context) : t * gl_Context :=
  (b, context).

Definition attributeBinding (b : t)
    (currentValue : PossiblyEvaluatedPropertyValue T) : AttributeBinding :=
  let value := attributeValue (constantOr currentValue (constant b)) in
  ConstantBinding (zoomInterpolatedAttributeValue value value).

Definition interpolationFactor (b : t) (currentZoom : R) : R := 0%R.
End Binder.
Arguments t : clear implicits.
End ConstantPaintPropertyBinder.

Module SourceFunctionPaintPropertyBinder.
Section Binder.
Context `{Collaborators} {T : Type} `{PaintProperty T}.

Record t : Type := mk {
  function : SourceFunction.t T;
  defaultValue : T;
  vertexVector : VertexVector;
  vertexBuffer : option VertexBuffer
}.

(** The constructor: the vector is empty, the buffer absent. *)
Definition make (function_ : SourceFunction.t T) (defaultValue_ : T) : t :=
  mk function_ defaultValue_ [] None.

Definition populateVertexVector (b : t) (feature : GeometryTileFeature)
    (length : nat) (statistics : Statistics) : t * Statistics :=
  let evaluated := SourceFunction.evaluate (function b) feature (defaultValue b) in
  let statistics' := add statistics evaluated in
  let value := attributeValue evaluated in
  (mk (function b) (defaultValue b)
      (emplace_back_until length (vertexVector b) value)
      (vertexBuffer b),
   statistics').

Definition upload (b : t) (context : gl_Context) : t * gl_Context :=
  let '(context', buffer, moved) := createVertexBuffer context (vertexVector b) in
  (mk (function b) (defaultValue b) moved (Some buffer), context').

(** [*vertexBuffer] on an empty optional has no defined result. *)
Definition attributeBinding (b : t)
    (currentValue : PossiblyEvaluatedPropertyValue T) : option AttributeBinding :=
  if isConstant currentValue then
    match constant currentValue with
    | Some c =>
        let value := attributeValue c in
        Some (ConstantBinding (zoomInterpolatedAttributeValue value value))
    | None => None
    end
  else
    match vertexBuffer b with
    | Some buffer => Some (VariableBinding buffer 0 Dimensions)
    | None => None
    end.

Definition interpolationFactor (b : t) (currentZoom : R) : R := 0%R.
End Binder.
Arguments t {_} T.
End SourceFunctionPaintPropertyBinder.

Module CompositeFunctionPaintPropertyBinder.
Section Binder.
Context `{Collaborators} {T : Type} `{PaintProperty T}.

Record t : Type := mk {
  function : CompositeFunction.t T;
  defaultValue : T;
  coveringRanges : Range.t R * Range.t InnerStops;
  vertexVector : VertexVector;
  vertexBuffer : option VertexBuffer
}.

Definition make (function_ : CompositeFunction.t T) (zoom : R) (defaultValue_ : T) : t :=
  mk function_ defaultValue_ (CompositeFunction.coveringRanges function_ zoom) [] None.

Definition populateVertexVector (b : t) (feature : GeometryTileFeature)
    (length : nat) (statistics : Statistics) : t * Statistics :=
  let range :=
    CompositeFunction.evaluate (function b) (snd (coveringRanges b)) feature
                               (defaultValue b) in
  let statistics' := add_range statistics range in
  let value :=
    zoomInterpolatedAttributeValue (attributeValue (Range.min range))
                                   (attributeValue (Range.max range)) in
  (mk (function b) (defaultValue b) (coveringRanges b)
      (emplace_back_until length (vertexVector b) value)
      (vertexBuffer b),
   statistics').

Definition upload (b : t) (context : gl_Context) : t * gl_Context :=
  let '(context', buffer, moved) := createVertexBuffer context (vertexVector b) in
  (mk (function b) (defaultValue b) (coveringRanges b) moved (Some buffer), context').

Definition attributeBinding (b : t)
    (currentValue : PossiblyEvaluatedPropertyValue T) : option AttributeBinding :=
  if isConstant currentValue then
    match constant currentValue with
    | Some c =>
        let value := attributeValue c in
        Some (ConstantBinding (zoomInterpolatedAttributeValue value value))
    | None => None
    end
  else
    match vertexBuffer b with
    | Some buffer => Some (VariableBinding buffer 0 (Dimensions * 2))
    | None => None
    end.

Definition interpolationFactor (b : t) (currentZoom : R) : R :=
  util_interpolationFactor 1 (fst (coveringRanges b)) currentZoom.
End Binder.
Arguments t {_} T.
End CompositeFunctionPaintPropertyBinder.

(** The abstract class: one of the three strategies, chosen by [create]
    from the tag of the evaluated value; the virtual members dispatch. *)
Module PaintPropertyBinder.
Section Binder.
Context `{Collaborators} {T : Type} `{PaintProperty T}.

Inductive t : Type :=
  | ConstantB (b : ConstantPaintPropertyBinder.t T)
  | SourceFunctionB (b : SourceFunctionPaintPropertyBinder.t T)
  | CompositeFunctionB (b : CompositeFunctionPaintPropertyBinder.t T).

Definition create (value : PossiblyEvaluatedPropertyValue T) (zoom : R)
    (defaultValue : T) : t :=
  match value with
  | Constant c => ConstantB (ConstantPaintPropertyBinder.mk c)
  | SourceFn fn =>
      SourceFunctionB (SourceFunctionPaintPropertyBinder.make fn defaultValue)
  | CompositeFn fn =>
      CompositeFunctionB (CompositeFunctionPaintPropertyBinder.make fn zoom defaultValue)
  end.

Definition populateVertexVector (b : t) (feature : GeometryTileFeature)
    (length : nat) (statistics : Statistics) : t * Statistics :=
  match b with
  | ConstantB c =>
      let (c', s) := ConstantPaintPropertyBinder.populateVertexVector c feature length statistics in
      (ConstantB c', s)
  | SourceFunctionB f =>
      let (f', s) := SourceFunctionPaintPropertyBinder.populateVertexVector f feature length statistics in
      (SourceFunctionB f', s)
  | CompositeFunctionB f =>
      let (f', s) := CompositeFunctionPaintPropertyBinder.populateVertexVector f feature length statistics in
      (CompositeFunctionB f', s)
  end.

Definition upload (b : t) (context : gl_Context) : t * gl_Context :=
  match b with
  | ConstantB c =>
      let (c', k) := ConstantPaintPropertyBinder.upload c context in (ConstantB c', k)
  | SourceFunctionB f =>
      let (f', k) := SourceFunctionPaintPropertyBinder.upload f context in
      (SourceFunctionB f', k)
  | CompositeFunctionB f =>
      let (f', k) := CompositeFunctionPaintPropertyBinder.upload f context in
      (CompositeFunctionB f', k)
  end.

Definition attributeBinding (b : t)
    (currentValue : PossiblyEvaluatedPropertyValue T) : option AttributeBinding :=
  match b with
  | ConstantB c => Some (ConstantPaintPropertyBinder.attributeBinding c currentValue)
  | SourceFunctionB f => SourceFunctionPaintPropertyBinder.attributeBinding f currentValue
  | CompositeFunctionB f => CompositeFunctionPaintPropertyBinder.attributeBinding f currentValue
  end.

Definition interpolationFactor (b : t) (currentZoom : R) : R :=
  match b with
  | ConstantB c => ConstantPaintPropertyBinder.interpolationFactor c currentZoom
  | SourceFunctionB f => SourceFunctionPaintPropertyBinder.interpolationFactor f currentZoom
  | CompositeFunctionB f => CompositeFunctionPaintPropertyBinder.interpolationFactor f currentZoom
  end.

(** The vertex sequence and the buffer handle of a binder that has
    them. *)
Definition vertexVector (b : t) : VertexVector :=
  match b with
  | ConstantB _ => []
  | SourceFunctionB f => SourceFunctionPaintPropertyBinder.vertexVector f
  | CompositeFunctionB f => CompositeFunctionPaintPropertyBinder.vertexVector f
  end.

Definition vertexBuffer (b : t) : option VertexBuffer :=
  match b with
  | ConstantB _ => None
  | SourceFunctionB f => SourceFunctionPaintPropertyBinder.vertexBuffer f
  | CompositeFunctionB f => CompositeFunctionPaintPropertyBinder.vertexBuffer f
  end.

Definition isFunctionBinder (b : t) : bool :=
  match b with ConstantB _ => false | _ => true end.

(** Calls made on a binder during its life. *)
Inductive Call : Type :=
  | Populate (feature : GeometryTileFeature) (length : nat)
  | Upload.

Definition State : Type := (t * Statistics * gl_Context)%type.

Definition step (st : State) (c : Call) : State :=
  let '(b, statistics, context) := st in
  match c with
  | Populate feature length =>
      let (b', statistics') := populateVertexVector b feature length statistics in
      (b', statistics', context)
  | Upload =>
      let (b', context') := upload b context in
      (b', statistics, context')
  end.

Definition run (calls : list Call) (st : State) : State := fold_left step calls st.

Definition binderOf (st : State) : t := fst (fst st).

Definition isPopulate (c : Call) : bool :=
  match c with Populate _ _ => true | Upload => false end.

(** A sequence of population calls, one per feature with its target
    length. *)
Definition populateCalls (l : list (GeometryTileFeature * nat)) : list Call :=
  map (fun fl => Populate (fst fl) (snd fl)) l.
End Binder.
Arguments t {_} T.
Arguments State {_} T {_}.
End PaintPropertyBinder.

(* ================================================================= *)
(** ** The shader's side of the colour packing *)

(** The rational number a finite float stands for. *)
Definition exact (x : float) : option Q :=
  match x with
  | S754_zero _ => Some 0%Q
  | S754_finite s m e => Some (inject_Z (cond_Zopp s (Zpos m)) * 2 ^ e)%Q
  | _ => None
  end.

(** Modelled from the spec: the decoding of a packed float by the shader,
    which is not part of this header: [component_high = floor(f / 256)]
    and [component_low = f mod 256]. *)
Definition component_high (f : float) : option Z :=
  option_map (fun q => Qfloor (q / 256)) (exact f).

Definition component_low (f : float) : option Q :=
  option_map (fun q => Qred (q - 256 * inject_Z (Qfloor (q / 256)))) (exact f).

(** The 8-bit quantisation [floor(c * 255)] of a channel, in exact
    arithmetic. *)
Definition quantized (c : float) : option Z :=
  option_map (fun q => Qfloor (q * 255)) (exact c).

(** A channel in the unit interval: a binary32 number between 0 and 1. *)
Definition unit_channel (c : float) : bool :=
  valid c && leb zero c && leb c one.

Definition unit_color (color : Color) : bool :=
  unit_channel (r color) && unit_channel (g color)
  && unit_channel (b color) && unit_channel (a color).

(** The float [x] stands for the rational [q]. *)
Definition exact_is (x : float) (q : Q) : bool :=
  match exact x with
  | Some v => Qeq_bool v q
  | None => false
  end.

(** The colour (0.5, 0.25, 0.75, 1.0). *)
Definition scenario_color : Color :=
  mkColor (dyadic 1 (-1)) (dyadic 1 (-2)) (dyadic 3 (-2)) one.


(** Colours with all four channels in the unit interval, as a property
    value type: the encoder is defined on all of them. *)
Definition UnitColor : Type := { color : Color | unit_color color = true }.

Definition attributeValue_UnitColor (color : UnitColor) : FloatArray :=
  match attributeValue_Color (proj1_sig color) with
  | Some value => value
  | None => [zero; zero]
  end.

(* ================================================================= *)
(** ** Analysis of the rounding of [c * 255] *)

(** After [n] halvings of [m0]: the quotient, and a round bit that is set
    only when the remainder is at least half of [2^n]. *)
Definition shifted (m0 n : Z) (mrs : shr_record) : Prop :=
  (shr_m mrs = m0 / 2 ^ n /\ (shr_r mrs = true -> 2 ^ n <= 2 * (m0 mod 2 ^ n)))%Z.

(** Whether [255 * M], for the mantissa [M] of a channel with exponent
    [-N], can lie so close below the multiple [K * 2^N] that rounding to
    24 bits reaches it; decided from the quotient and the remainder of
    [K * 2^N] by 255. *)
Definition crossing (K N : Z) : bool :=
  (let q := (K * 2 ^ N) mod 255 in
   let M := (K * 2 ^ N) / 255 in
   (1 <=? q) && (q * 2 ^ 24 <=? 255 * M) && (M <? 2 ^ 24))%Z.

Definition crossing_table : bool :=
  forallb (fun n => forallb (fun k => negb (crossing (1 + Z.of_nat k) (23 + Z.of_nat n)))
                            (seq 0 255))
          (seq 0 9).

(** Every integer below [2^16] converts to a float that holds it, and the
    shader's decoding of that float splits it into its two bytes. *)
Definition packed_ok (n : Z) : bool :=
  match to_int_exact (of_int n), component_high (of_int n), component_low (of_int n) with
  | Some i, Some hi, Some lo =>
      ((i =? n) && (hi =? n / 256))%Z && Qeq_bool lo (inject_Z (n mod 256))
      && (Zpos (Qden lo) =? 1)%Z
  | _, _, _ => false
  end.

Definition packed_cell (hi lo : nat) : bool :=
  packed_ok (Z.of_nat hi * 256 + Z.of_nat lo).


(* ================================================================= *)
(** ** A concrete instance *)

Module Demo.

(** Features are numbered; a buffer records the context's counter at its
    creation and the vertices it was created from, which the context
    leaves in place. *)
Definition collaborators : Collaborators := {|
  GeometryTileFeature := nat;
  InnerStops := unit;
  gl_Context := nat;
  VertexBuffer := nat * VertexVector;
  createVertexBuffer := fun context v => (S context, (context, v), v)
|}.

(** A scalar property; its statistics keep every value added. *)
Definition scalar : PaintProperty float := {|
  Dimensions := 1;
  attributeValue := attributeValue_float;
  Statistics := list float;
  add := fun s v => s ++ [v];
  add_range := fun s rg => s ++ [Range.min rg; Range.max rg]
|}.

(** A colour property without statistics. *)
Definition color : PaintProperty UnitColor := {|
  Dimensions := 2;
  attributeValue := attributeValue_UnitColor;
  Statistics := unit;
  add := fun s _ => s;
  add_range := fun s _ => s
|}.

(** Feature 0 carries the value 7, the others carry none. *)
Definition sourceFn : @SourceFunction.t collaborators float :=
  @SourceFunction.mk collaborators float
    (fun feature : nat => match feature with O => Some (of_int 7) | _ => None end).

(** Declared base 2, zoom stops at 0 and 2. *)
Definition compositeFn : @CompositeFunction.t collaborators float :=
  @CompositeFunction.mk collaborators float 2%R
    (fun _ => (Range.mk 0%R 2%R, Range.mk tt tt))
    (fun _ (feature : nat) defaultValue =>
       match feature with
       | O => Range.mk (of_int 7) (of_int 9)
       | _ => Range.mk defaultValue defaultValue
       end).

(** A binder created from the source function, and one created from the
    composite function at zoom 1, with default value 0. *)
Definition sourceBinder : @PaintPropertyBinder.t collaborators float :=
  @PaintPropertyBinder.create collaborators float (SourceFn sourceFn) 1%R zero.

Definition compositeBinder : @PaintPropertyBinder.t collaborators float :=
  @PaintPropertyBinder.create collaborators float (CompositeFn compositeFn) 1%R zero.

(** Statistics holding the given values, and the context's first state. *)
Definition statisticsOf (values : list float) : @Statistics float scalar := values.

Definition context0 : @gl_Context collaborators := 0%nat.

(** Three features of 3, 2 and 5 vertices in all. *)
Definition features : list (nat * nat) := [(0, 3); (1, 2); (2, 5)]%nat.

(** The source binder after feature 0 with three vertices, and after
    the upload that follows. *)
Definition populated : @PaintPropertyBinder.t collaborators float :=
  @PaintPropertyBinder.binderOf collaborators float scalar
    (@PaintPropertyBinder.run collaborators float scalar
       [@PaintPropertyBinder.Populate collaborators 0%nat 3%nat]
       (sourceBinder, statisticsOf [], context0)).

Definition populateThenUpload : list (@PaintPropertyBinder.Call collaborators) :=
  [@PaintPropertyBinder.Populate collaborators 0%nat 3%nat;
   @PaintPropertyBinder.Upload collaborators].

Definition uploaded : @PaintPropertyBinder.t collaborators float :=
  @PaintPropertyBinder.binderOf collaborators float scalar
    (@PaintPropertyBinder.run collaborators float scalar populateThenUpload
       (sourceBinder, statisticsOf [], context0)).

End Demo.

(* ================================================================= *)
(** ** The uniform name and the binder set *)

(** [InterpolationUniform<Attr>::name()]: the attribute's name followed
    by ["_t"]. *)
Module InterpolationUniform.
Import String.
Definition name (attributeName : string) : string :=
  String.append attributeName "_t".
End InterpolationUniform.

(** [PaintPropertyBinders<TypeList<Ps...>>]: one binder per property of
    the list [Ps], and the statistics they share. *)
Module PaintPropertyBinders.
Section Binders.
Context `{Collaborators} {S : Type}.

(** What the set uses of one property [P]: the name of its attribute,
    its value type with its encoder and width, its default value, and
    [add<P>] on the shared statistics [S]. *)
Record Property : Type := mkProperty {
  attributeName : String.string;
  Value : Type;
  width : nat;
  encode : Value -> FloatArray;
  defaultValue : Value;
  addValue : S -> Value -> S;
  addRange : S -> Range.t Value -> S
}.

Definition paintProperty (p : Property) : PaintProperty (Value p) := {|
  Dimensions := width p;
  attributeValue := encode p;
  Statistics := S;
  add := addValue p;
  add_range := addRange p
|}.

(** [Binder<P>] for each [P]: the binder with the property it belongs
    to. *)
Definition Entry : Type := { p : Property & PaintPropertyBinder.t (Value p) }.

Record t : Type := mk {
  statistics : S;
  binders : list Entry
}.

(** [EvaluatedProperties]: for each property its evaluated value
    ([properties.get<P>()]). *)
Definition EvaluatedProperties : Type :=
  forall p : Property, PossiblyEvaluatedPropertyValue (Value p).

(** The constructor; [statistics_] is the default-constructed
    statistics member. *)
Definition make (Ps : list Property) (properties : EvaluatedProperties) (z : R)
    (statistics_ : S) : t :=
  mk statistics_
     (map (fun p : Property =>
             existT (fun p => PaintPropertyBinder.t (Value p)) p
                    (@PaintPropertyBinder.create _ (Value p)
                       (properties p) z (defaultValue p)))
          Ps).

(** The pack expansion of [populateVertexVector] over the binders, in
    the order of the list, on the shared statistics. *)
Fixpoint populateEach (bs : list Entry) (feature : GeometryTileFeature)
    (length : nat) (statistics_ : S) : list Entry * S :=
  match bs with
  | [] => ([], statistics_)
  | existT _ p b :: rest =>
      let (b', s1) :=
        @PaintPropertyBinder.populateVertexVector _ (Value p) (paintProperty p)
          b feature length statistics_ in
      let (rest', s2) := populateEach rest feature length s1 in
      (existT _ p b' :: rest', s2)
  end.

Definition populateVertexVectors (set : t) (feature : GeometryTileFeature)
    (length : nat) : t :=
  let (bs, s) := populateEach (binders set) feature length (statistics set) in
  mk s bs.

Fixpoint uploadEach (bs : list Entry) (context : gl_Context)
    : list Entry * gl_Context :=
  match bs with
  | [] => ([], context)
  | existT _ p b :: rest =>
      let (b', c1) :=
        @PaintPropertyBinder.upload _ (Value p) b context in
      let (rest', c2) := uploadEach rest c1 in
      (existT _ p b' :: rest', c2)
  end.

Definition upload (set : t) (context : gl_Context) : t * gl_Context :=
  let (bs, c) := uploadEach (binders set) context in
  (mk (statistics set) bs, c).

(** The bindings of all properties for one draw call; there is a result
    when every binder's binding has one. *)
Fixpoint bindingsOf (bs : list Entry) (currentProperties : EvaluatedProperties)
    : option (list AttributeBinding) :=
  match bs with
  | [] => Some []
  | existT _ p b :: rest =>
      match @PaintPropertyBinder.attributeBinding _ (Value p) (paintProperty p)
              b (currentProperties p),
            bindingsOf rest currentProperties with
      | Some binding, Some bindings => Some (binding :: bindings)
      | _, _ => None
      end
  end.

Definition attributeBindings (set : t) (currentProperties : EvaluatedProperties)
    : option (list AttributeBinding) :=
  bindingsOf (binders set) currentProperties.

(** One uniform per property: its name and the binder's factor. *)
Definition uniformValues (set : t) (currentZoom : R) : list (String.string * R) :=
  map (fun e : Entry =>
         (InterpolationUniform.name (attributeName (projT1 e)),
          @PaintPropertyBinder.interpolationFactor _ (Value (projT1 e)) (projT2 e)
            currentZoom))
      (binders set).


(** Calls made on a binder set during its life. *)
Inductive Call : Type :=
  | PopulateAll (feature : GeometryTileFeature) (length : nat)
  | UploadAll.

Definition step (st : t * gl_Context) (c : Call) : t * gl_Context :=
  match c with
  | PopulateAll feature length => (populateVertexVectors (fst st) feature length, snd st)
  | UploadAll => upload (fst st) (snd st)
  end.

Definition run (calls : list Call) (st : t * gl_Context) : t * gl_Context :=
  fold_left step calls st.

Definition isPopulateAll (c : Call) : bool :=
  match c with PopulateAll _ _ => true | UploadAll => false end.

Definition populateAllCalls (l : list (GeometryTileFeature * nat)) : list Call :=
  map (fun fl => PopulateAll (fst fl) (snd fl)) l.

(** What is observed of an entry: its property, whether its binder has a
    vertex sequence, the length of that sequence, its buffer handle. *)
Definition propertyOf (e : Entry) : Property := projT1 e.

Definition hasVertices (e : Entry) : bool :=
  PaintPropertyBinder.isFunctionBinder (projT2 e).

Definition sizeOf (e : Entry) : nat :=
  vertexSize (PaintPropertyBinder.vertexVector (projT2 e)).

Definition bufferOf (e : Entry) : option VertexBuffer :=
  PaintPropertyBinder.vertexBuffer (projT2 e).

(** The entry's binder is the one built for its property from the
    evaluated properties at zoom [z]: same constant, or same function,
    default value and covering ranges. *)
Definition builtFrom (properties : EvaluatedProperties) (z : R) (e : Entry) : Prop :=
  match e with
  | existT _ p b =>
      match properties p, b with
      | Constant c, PaintPropertyBinder.ConstantB cb =>
          ConstantPaintPropertyBinder.constant cb = c
      | SourceFn fn, PaintPropertyBinder.SourceFunctionB sb =>
          SourceFunctionPaintPropertyBinder.function sb = fn
          /\ SourceFunctionPaintPropertyBinder.defaultValue sb = defaultValue p
      | CompositeFn fn, PaintPropertyBinder.CompositeFunctionB cb =>
          CompositeFunctionPaintPropertyBinder.function cb = fn
          /\ CompositeFunctionPaintPropertyBinder.defaultValue cb = defaultValue p
          /\ CompositeFunctionPaintPropertyBinder.coveringRanges cb
             = CompositeFunction.coveringRanges fn z
      | _, _ => False
      end
  end.

(** What one call of [populateVertexVectors] adds to the statistics for
    a property, from its evaluated value. *)
Definition recorded (properties : EvaluatedProperties) (z : R)
    (feature : GeometryTileFeature) (statistics_ : S) (p : Property) : S :=
  match properties p with
  | Constant _ => statistics_
  | SourceFn fn =>
      addValue p statistics_ (SourceFunction.evaluate fn feature (defaultValue p))
  | CompositeFn fn =>
      addRange p statistics_
        (CompositeFunction.evaluate fn (snd (CompositeFunction.coveringRanges fn z))
                                    feature (defaultValue p))
  end.

(** The factor a property's uniform carries, from its evaluated value. *)
Definition factorOf (properties : EvaluatedProperties) (z currentZoom : R)
    (p : Property) : R :=
  match properties p with
  | CompositeFn fn =>
      util_interpolationFactor 1 (fst (CompositeFunction.coveringRanges fn z)) currentZoom
  | _ => 0%R
  end.

(** What holds of an entry of a set built from [properties] at [z]:
    [m] is the length of the vertex sequences when it is known, and
    [uploaded] tells whether upload has run. *)
Definition wellFormed (properties : EvaluatedProperties) (z : R)
    (m : option nat) (uploaded : bool) (e : Entry) : Prop :=
  builtFrom properties z e
  /\ hasVertices e = negb (isConstant (properties (propertyOf e)))
  /\ (hasVertices e = true ->
      (forall n, m = Some n -> sizeOf e = n)
      /\ (if uploaded then bufferOf e <> None else bufferOf e = None)).

(** How a call changes the known length and the upload flag. *)
Definition lengthAfter (m : option nat) (c : Call) : option nat :=
  match c with
  | PopulateAll _ length => option_map (fun n => Nat.max n length) m
  | UploadAll => None
  end.

Definition uploadedAfter (uploaded : bool) (c : Call) : bool :=
  match c with
  | PopulateAll _ _ => uploaded
  | UploadAll => true
  end.

End Binders.
Arguments Property : clear implicits.
Arguments t {_} S.
Arguments Entry {_} S.
Arguments EvaluatedProperties {_} S.
End PaintPropertyBinders.

(** The vertices a sequence of population calls leaves: for each call in
    turn, copies of its vertex up to its target length. *)
Fixpoint fill (vertexVector : VertexVector) (items : list (Vertex * nat)) : VertexVector :=
  match items with
  | [] => vertexVector
  | (v, length) :: rest => fill (emplace_back_until length vertexVector v) rest
  end.

(** A set of two scalar properties sharing a log of the values added:
    the width is evaluated to a function of the feature, the opacity to
    its constant default. *)
Module DemoSet.

Definition scalarProperty (attributeName : String.string)
    : PaintPropertyBinders.Property (list float) :=
  @PaintPropertyBinders.mkProperty (list float) attributeName float 1
    attributeValue_float zero
    (fun s v => s ++ [v])
    (fun s rg => s ++ [Range.min rg; Range.max rg]).

Import String.

Definition width : PaintPropertyBinders.Property (list float) :=
  scalarProperty "a_width"%string.

Definition opacity : PaintPropertyBinders.Property (list float) :=
  scalarProperty "a_opacity"%string.

Definition isWidth (p : PaintPropertyBinders.Property (list float)) : bool :=
  String.eqb (PaintPropertyBinders.attributeName p) "a_width"%string.

(** Evaluated at build time: the width is a source function without data
    for any feature, every other property its default. *)
Definition evaluated
    : @PaintPropertyBinders.EvaluatedProperties Demo.collaborators (list float) :=
  fun p =>
    if isWidth p
    then SourceFn (@SourceFunction.mk Demo.collaborators _ (fun _ => None))
    else Constant (PaintPropertyBinders.defaultValue p).

Definition populateThenUpload : list (@PaintPropertyBinders.Call Demo.collaborators) :=
  [@PaintPropertyBinders.PopulateAll Demo.collaborators 0%nat 3%nat;
   @PaintPropertyBinders.UploadAll Demo.collaborators].

End DemoSet.

(* ================================================================= *)
(** * Properties *)

(** ** Rounding of a product to binary32 *)

Local Open Scope Z_scope.

Lemma digits2_pos_bounds (p : positive) :
  2 ^ (Zpos (digits2_pos p) - 1) <= Zpos p < 2 ^ Zpos (digits2_pos p).
Proof.
  induction p as [p IH | p IH | ]; cbn [digits2_pos].
  - rewrite Pos2Z.inj_succ.
    replace (Z.succ (Zpos (digits2_pos p)) - 1) with (Z.succ (Zpos (digits2_pos p) - 1)) by lia.
    rewrite !Z.pow_succ_r by lia. lia.
  - rewrite Pos2Z.inj_succ.
    replace (Z.succ (Zpos (digits2_pos p)) - 1) with (Z.succ (Zpos (digits2_pos p) - 1)) by lia.
    rewrite !Z.pow_succ_r by lia. lia.
  - cbn. lia.
Qed.

Lemma shr_1_m (mrs : shr_record) :
  0 <= shr_m mrs -> shr_m (shr_1 mrs) = shr_m mrs / 2.
Proof.
  destruct mrs as [m r0 s0]; cbn [shr_m]. intros Hm.
  destruct m as [|p|p]; [reflexivity| |lia].
  destruct p as [p|p|]; cbn [shr_1 shr_m].
  - rewrite Pos2Z.inj_xI. apply Z.div_unique with 1; lia.
  - rewrite Pos2Z.inj_xO. apply Z.div_unique with 0; lia.
  - reflexivity.
Qed.

Lemma shr_1_r (mrs : shr_record) :
  0 <= shr_m mrs -> shr_r (shr_1 mrs) = Z.odd (shr_m mrs).
Proof.
  destruct mrs as [m r0 s0]; cbn [shr_m]. intros Hm.
  destruct m as [|p|p]; [reflexivity| |lia].
  destruct p as [p|p|]; reflexivity.
Qed.

Lemma shifted_step (m0 n : Z) (mrs : shr_record) :
  0 <= m0 -> 0 <= n -> shifted m0 n mrs -> shifted m0 (n + 1) (shr_1 mrs).
Proof.
  intros Hm0 Hn [Hq Hr].
  assert (Hp : 0 < 2 ^ n) by (apply Z.pow_pos_nonneg; lia).
  assert (Hq0 : 0 <= shr_m mrs) by (rewrite Hq; apply Z.div_pos; lia).
  split.
  - rewrite shr_1_m by exact Hq0. rewrite Hq, Z.pow_add_r, Z.pow_1_r by lia.
    rewrite Z.div_div by lia. reflexivity.
  - rewrite shr_1_r by exact Hq0. intros Hodd.
    rewrite Z.pow_add_r, Z.pow_1_r by lia.
    rewrite Z.rem_mul_r by lia.
    rewrite <- Hq. rewrite Zmod_odd, Hodd.
    pose proof (Z.mod_pos_bound m0 (2 ^ n) Hp). lia.
Qed.

Lemma shifted_iter (m0 : Z) (p : positive) :
  0 <= m0 ->
  forall (n : Z) (mrs : shr_record),
    0 <= n -> shifted m0 n mrs -> shifted m0 (n + Zpos p) (SpecFloat.iter_pos shr_1 p mrs).
Proof.
  intros Hm0. induction p as [p IH | p IH | ]; intros n mrs Hn H; cbn [SpecFloat.iter_pos].
  - replace (n + Zpos p~1) with (((n + 1) + Zpos p) + Zpos p) by lia.
    apply IH; [lia|]. apply IH; [lia|]. apply shifted_step; assumption.
  - replace (n + Zpos p~0) with ((n + Zpos p) + Zpos p) by lia.
    apply IH; [lia|]. apply IH; assumption.
  - apply shifted_step; assumption.
Qed.

Lemma shifted_start (m0 : Z) : shifted m0 0 (Build_shr_record m0 false false).
Proof.
  split; cbn [shr_m shr_r]; [|discriminate].
  rewrite Z.pow_0_r, Z.div_1_r. reflexivity.
Qed.

Lemma shr_exact_spec (m0 e n : Z) :
  0 <= m0 -> 0 <= n ->
  shifted m0 n (fst (shr (Build_shr_record m0 false false) e n))
  /\ snd (shr (Build_shr_record m0 false false) e n) = e + n.
Proof.
  intros Hm0 Hn. destruct n as [|p|p]; cbn [shr fst snd].
  - split; [apply shifted_start | lia].
  - split; [|reflexivity].
    apply (shifted_iter m0 p Hm0 0); [lia | apply shifted_start].
  - lia.
Qed.

Lemma round_nearest_even_cases (mrs : shr_record) :
  let m1 := round_nearest_even (shr_m mrs) (loc_of_shr_record mrs) in
  m1 = shr_m mrs \/ (m1 = shr_m mrs + 1 /\ shr_r mrs = true).
Proof.
  destruct mrs as [m [|] [|]]; cbn; auto.
  destruct (Z.even m); auto.
Qed.

Lemma shr_fexp_exact (mx ex : Z) :
  0 <= mx ->
  let n := Z.max 0 (fexp prec emax (Zdigits2 mx + ex) - ex) in
  shifted mx n (fst (shr_fexp prec emax mx ex loc_Exact))
  /\ snd (shr_fexp prec emax mx ex loc_Exact) = ex + n.
Proof.
  intros Hmx n. subst n. unfold shr_fexp. cbn [shr_record_of_loc].
  destruct (fexp prec emax (Zdigits2 mx + ex) - ex) as [|p|p] eqn:En.
  - cbn [shr fst snd]. split; [apply shifted_start | lia].
  - replace (Z.max 0 (Zpos p)) with (Zpos p) by lia.
    apply shr_exact_spec; lia.
  - cbn [shr fst snd]. replace (Z.max 0 (Zneg p)) with 0 by lia.
    split; [apply shifted_start | lia].
Qed.

Lemma Zdigits2_bounds (m : Z) :
  0 < m -> 2 ^ (Zdigits2 m - 1) <= m < 2 ^ Zdigits2 m.
Proof.
  destruct m as [|p|p]; try lia. intros _. apply digits2_pos_bounds.
Qed.

Lemma Zdigits2_le (m d : Z) : 0 <= m -> 0 <= d -> m < 2 ^ d -> Zdigits2 m <= d.
Proof.
  intros Hm Hd Hlt. destruct (Z.eq_dec m 0) as [->|Hne]; [cbn; lia|].
  pose proof (Zdigits2_bounds m ltac:(lia)) as [Hlo _].
  destruct (Z_le_gt_dec (Zdigits2 m) d) as [|Hgt]; [assumption|exfalso].
  assert (2 ^ d <= 2 ^ (Zdigits2 m - 1)) by (apply Z.pow_le_mono_r; lia).
  lia.
Qed.

(** The second normalisation and the truncation of the rounded value:
    for a mantissa [m1] at a non-positive exponent [e1] whose value is
    below [2^24], the integer part is [m1 / 2^(-e1)]. *)
Lemma trunc_normalised (m1 e1 : Z) :
  0 <= m1 -> emin prec emax <= e1 <= 0 -> m1 < 2 ^ (24 - e1) ->
  trunc (let '(mrs, e2) := shr_fexp prec emax m1 e1 loc_Exact in
         match shr_m mrs with
         | Z0 => S754_zero false
         | Zpos m => if e2 <=? emax - prec then S754_finite false m e2
                     else S754_infinity false
         | Zneg _ => S754_nan
         end) = Some (m1 / 2 ^ (- e1)).
Proof.
  intros Hm1 He1 Hlt.
  destruct (shr_fexp_exact m1 e1 Hm1) as [[Hq _] He2].
  destruct (shr_fexp prec emax m1 e1 loc_Exact) as [mrs e2]. cbn [fst snd] in *.
  set (n := Z.max 0 (fexp prec emax (Zdigits2 m1 + e1) - e1)) in *.
  assert (Hd : Zdigits2 m1 <= 24 - e1) by (apply Zdigits2_le; lia).
  assert (Hn : 0 <= n) by (unfold n; lia).
  assert (He2' : e2 <= 0).
  { subst e2. unfold n, fexp, emin, prec, emax in *. lia. }
  assert (Hsplit : m1 / 2 ^ (- e1) = shr_m mrs / 2 ^ (- e2)).
  { rewrite Hq, Z.div_div by (try apply Z.pow_pos_nonneg; lia).
    rewrite <- Z.pow_add_r by lia. f_equal. f_equal. lia. }
  rewrite Hsplit.
  assert (Hm2 : 0 <= shr_m mrs) by (rewrite Hq; apply Z.div_pos; [lia | apply Z.pow_pos_nonneg; lia]).
  destruct (shr_m mrs) as [|m2|m2] eqn:Em2; [| |lia].
  - cbn [trunc]. rewrite Zdiv_0_l. reflexivity.
  - replace (e2 <=? emax - prec) with true
      by (symmetry; apply Z.leb_le; unfold emax, prec; lia).
    cbn [trunc cond_Zopp]. f_equal.
    destruct e2 as [|p|p]; [|lia|].
    + cbn. rewrite Z.div_1_r. reflexivity.
    + rewrite Z.shiftr_div_pow2 by lia. reflexivity.
Qed.

Lemma crossing_table_ok : crossing_table = true.
Proof. vm_compute. reflexivity. Qed.

Lemma crossing_never (K N : Z) :
  1 <= K <= 255 -> 23 <= N <= 31 -> crossing K N = false.
Proof.
  intros HK HN.
  pose proof crossing_table_ok as Ht. unfold crossing_table in Ht.
  rewrite forallb_forall in Ht.
  assert (Hn : In (Z.to_nat (N - 23)) (seq 0 9)) by (apply in_seq; lia).
  specialize (Ht _ Hn). rewrite forallb_forall in Ht.
  assert (Hk : In (Z.to_nat (K - 1)) (seq 0 255)) by (apply in_seq; lia).
  specialize (Ht _ Hk).
  replace (1 + Z.of_nat (Z.to_nat (K - 1))) with K in Ht by lia.
  replace (23 + Z.of_nat (Z.to_nat (N - 23))) with N in Ht by lia.
  apply negb_true_iff. exact Ht.
Qed.

Lemma no_round_up_across (M N K q : Z) :
  23 <= N -> 0 < M < 2 ^ 24 -> M <= 2 ^ N -> 1 <= K -> 1 <= q ->
  K * 2 ^ N = 255 * M + q -> q * 2 ^ 24 <= 255 * M -> False.
Proof.
  intros HN HM HM1 HK Hq Heq Hle.
  change (2 ^ 24) with 16777216 in *.
  assert (Hq255 : q < 255) by lia.
  assert (HN31 : N <= 31).
  { destruct (Z_le_gt_dec N 31) as [|Hgt]; [assumption|exfalso].
    assert (2 ^ 32 <= 2 ^ N) by (apply Z.pow_le_mono_r; lia).
    change (2 ^ 32) with 4294967296 in *. nia. }
  assert (HK255 : K <= 255).
  { assert (2 ^ 23 <= 2 ^ N) by (apply Z.pow_le_mono_r; lia).
    change (2 ^ 23) with 8388608 in *. nia. }
  pose proof (crossing_never K N ltac:(lia) ltac:(lia)) as Hc.
  unfold crossing in Hc.
  assert (Hmod : (K * 2 ^ N) mod 255 = q)
    by (symmetry; apply Z.mod_unique with M; lia).
  assert (Hdiv : (K * 2 ^ N) / 255 = M)
    by (symmetry; apply Z.div_unique with q; lia).
  rewrite Hmod, Hdiv in Hc. change (2 ^ 24) with 16777216 in Hc.
  apply andb_false_iff in Hc as [Hc | Hc].
  - apply andb_false_iff in Hc as [Hc | Hc].
    + apply Z.leb_gt in Hc. lia.
    + apply Z.leb_gt in Hc. lia.
  - apply Z.ltb_ge in Hc. lia.
Qed.

Lemma f255_eq : f255 = S754_finite false 16711680 (-16).
Proof. reflexivity. Qed.

Lemma bounded_inv (m : positive) (e : Z) :
  SpecFloat.bounded prec emax m e = true -> Zpos m < 2 ^ 24 /\ -149 <= e <= 104.
Proof.
  unfold SpecFloat.bounded, canonical_mantissa, fexp, emin, prec, emax.
  intros Hb. apply andb_true_iff in Hb as [Hc He].
  apply Z.eqb_eq in Hc. apply Z.leb_le in He.
  pose proof (digits2_pos_bounds m) as [_ Hhi].
  assert (Hd : Zpos (digits2_pos m) <= 24) by lia.
  assert (2 ^ Zpos (digits2_pos m) <= 2 ^ 24) by (apply Z.pow_le_mono_r; lia).
  lia.
Qed.

Lemma div_succ_same (x P : Z) :
  0 <= x -> 0 < P -> (x + 1) mod P <> 0 -> (x + 1) / P = x / P.
Proof.
  intros Hx HP Hne.
  pose proof (Z.div_mod x P ltac:(lia)) as Hdm.
  pose proof (Z.mod_pos_bound x P HP) as Hb.
  destruct (Z.eq_dec (x mod P + 1) P) as [Heq | Hneq].
  - exfalso. apply Hne.
    replace (x + 1) with ((x / P + 1) * P) by lia.
    apply Z.mod_mul. lia.
  - symmetry. apply Z.div_unique with (x mod P + 1); lia.
Qed.

Lemma mul_255_trunc (m : positive) (e : Z) :
  SpecFloat.bounded prec emax m e = true -> e <= -23 -> Zpos m <= 2 ^ (- e) ->
  trunc (mul (S754_finite false m e) f255) = Some (255 * Zpos m / 2 ^ (- e)).
Proof.
  intros Hb He Hle.
  destruct (bounded_inv m e Hb) as [Hm24 Hebnd].
  rewrite f255_eq. unfold mul. cbn [SFmul xorb]. unfold binary_round_aux.
  set (M := Zpos m) in *. set (N := - e) in *.
  assert (Hmx : Zpos (m * 16711680) = 255 * M * 65536) by (unfold M; lia).
  rewrite Hmx. set (mx := 255 * M * 65536). set (ex := e + -16).
  assert (HM0 : 0 < M) by (unfold M; lia).
  assert (HPN : 0 < 2 ^ N) by (apply Z.pow_pos_nonneg; lia).
  assert (Hmx0 : 0 < mx) by (unfold mx; lia).
  (* the number of digits of the product *)
  pose proof (Zdigits2_bounds mx Hmx0) as [HDlo HDhi].
  set (D := Zdigits2 mx) in *.
  assert (HD24 : 24 <= D).
  { destruct (Z_le_gt_dec 24 D) as [|Hgt]; [assumption|exfalso].
    assert (2 ^ D <= 2 ^ 23) by (apply Z.pow_le_mono_r; lia).
    change (2 ^ 23) with 8388608 in *. unfold mx in *. lia. }
  assert (HDN : D <= 24 + N).
  { apply Zdigits2_le; [lia | lia |].
    rewrite Z.pow_add_r by lia. change (2 ^ 24) with 16777216. unfold mx. nia. }
  (* the first shift *)
  destruct (shr_fexp_exact mx ex ltac:(lia)) as [[Hq Hr] He1].
  fold D in Hq, Hr, He1.
  destruct (shr_fexp prec emax mx ex loc_Exact) as [mrs e1]. cbn [fst snd] in *.
  set (n := Z.max 0 (fexp prec emax (D + ex) - ex)) in *.
  assert (Hn : n = Z.max (D - 24) (-149 - ex)).
  { unfold n, fexp, emin, prec, emax. lia. }
  assert (Hn0 : 0 <= n) by lia.
  assert (He1' : -149 <= e1 <= -16) by (unfold ex in *; lia).
  set (t := - e1).
  assert (Hnt : n + t = N + 16) by (unfold t, ex, N in *; lia).
  assert (HPn : 0 < 2 ^ n) by (apply Z.pow_pos_nonneg; lia).
  assert (HPt : 0 < 2 ^ t) by (apply Z.pow_pos_nonneg; unfold t; lia).
  assert (Hpow : 2 ^ n * 2 ^ t = 2 ^ N * 65536).
  { rewrite <- Z.pow_add_r by (unfold t; lia). rewrite Hnt.
    rewrite Z.pow_add_r by lia. reflexivity. }
  assert (Hexact : mx / 2 ^ n / 2 ^ t = 255 * M / 2 ^ N).
  { rewrite Z.div_div by lia. rewrite Hpow. unfold mx.
    apply Z.div_mul_cancel_r; lia. }
  assert (Hm'24 : mx / 2 ^ n < 2 ^ 24).
  { apply Z.div_lt_upper_bound; [lia|].
    rewrite <- Z.pow_add_r by lia.
    assert (2 ^ D <= 2 ^ (n + 24)) by (apply Z.pow_le_mono_r; lia). lia. }
  assert (Hm'0 : 0 <= mx / 2 ^ n) by (apply Z.div_pos; lia).
  pose proof (round_nearest_even_cases mrs) as Hcases. cbn zeta in Hcases.
  set (m1 := round_nearest_even (shr_m mrs) (loc_of_shr_record mrs)) in *.
  rewrite Hq in Hcases.
  assert (H224 : 2 ^ 24 < 2 ^ (24 - e1)) by (apply Z.pow_lt_mono_r; lia).
  rewrite trunc_normalised; [ | lia | unfold emin, prec, emax; lia | lia ].
  f_equal. fold t. rewrite <- Hexact.
  destruct Hcases as [-> | [-> Hbit]]; [reflexivity|].
  apply div_succ_same; [lia | lia |]. intros Hmod.
  (* the rounded mantissa would be a multiple of [2^t] *)
  apply Z.mod_divide in Hmod; [|lia]. destruct Hmod as [K HK].
  specialize (Hr Hbit).
  pose proof (Z.div_mod mx (2 ^ n) ltac:(lia)) as Hdm.
  pose proof (Z.mod_pos_bound mx (2 ^ n) HPn) as Hrho.
  set (m' := mx / 2 ^ n) in *. set (rho := mx mod 2 ^ n) in *.
  assert (HK1 : 1 <= K) by nia.
  assert (Ht24 : t <= 24).
  { destruct (Z_le_gt_dec t 24) as [|Hgt]; [assumption|exfalso].
    assert (2 ^ 25 <= 2 ^ t) by (apply Z.pow_le_mono_r; lia).
    change (2 ^ 25) with 33554432 in *. change (2 ^ 24) with 16777216 in *. nia. }
  assert (HnD : n = D - 24) by (unfold t, ex in *; lia).
  apply (no_round_up_across M N K (K * 2 ^ N - 255 * M)); try lia.
  assert (Hsum : mx + (2 ^ n - rho) = K * (2 ^ N * 65536)) by (rewrite <- Hpow; nia).
  assert (Hlow : 2 ^ n * 2 ^ 23 <= mx).
    { rewrite <- Z.pow_add_r by lia. replace (n + 23) with (D - 1) by lia. exact HDlo. }
    change (2 ^ 23) with 8388608 in Hlow. change (2 ^ 24) with 16777216.
    unfold mx in *. nia.
Qed.

(** ** The encoder on a channel of the unit interval *)

Lemma quantized_finite (m : positive) (e : Z) :
  e < 0 ->
  quantized (S754_finite false m e) = Some (255 * Zpos m / 2 ^ (- e)).
Proof.
  intros He. unfold quantized, exact. cbn [option_map cond_Zopp]. f_equal.
  rewrite (Zdiv_Qdiv (255 * Zpos m) (2 ^ (- e))).
  apply Qfloor_comp.
  rewrite inject_Z_mult, (Zpower_Qpower 2 (- e)) by lia.
  rewrite Qpower_opp. unfold Qdiv. change (inject_Z 2) with 2%Q.
  change (inject_Z 255) with 255%Q.
  rewrite Qinv_involutive. ring.
Qed.

Lemma one_eq : one = S754_finite false 8388608 (-23).
Proof. reflexivity. Qed.

Lemma compare_cont_le (p q : positive) (c : comparison) :
  Pos.compare_cont Eq p q = c -> c <> Gt -> Zpos p <= Zpos q.
Proof.
  intros Ec Hc. rewrite Pos.compare_cont_spec, Pos2Z.inj_compare in Ec.
  destruct (Z.compare_spec (Zpos p) (Zpos q)) as [Heq | Hlt | Hgt].
  - rewrite Heq. apply Z.le_refl.
  - apply Z.lt_le_incl. exact Hlt.
  - exfalso. apply Hc. rewrite <- Ec. reflexivity.
Qed.

Lemma leb_finite_inv (m1 m2 : positive) (e1 e2 : Z) :
  leb (S754_finite false m1 e1) (S754_finite false m2 e2) = true ->
  e1 < e2 \/ (e1 = e2 /\ Zpos m1 <= Zpos m2).
Proof.
  unfold leb, SFleb. cbn [SFcompare].
  destruct (Z.compare_spec e1 e2) as [Heq | Hlt | Hgt]; intros Hle.
  - right. split; [exact Heq|].
    apply (compare_cont_le m1 m2 (Pos.compare_cont Eq m1 m2)); [reflexivity|].
    intros Hc. rewrite Hc in Hle. discriminate Hle.
  - left. exact Hlt.
  - discriminate Hle.
Qed.

Lemma unit_channel_finite (s : bool) (m : positive) (e : Z) :
  unit_channel (S754_finite s m e) = true ->
  s = false /\ SpecFloat.bounded prec emax m e = true
  /\ e <= -23 /\ Zpos m <= 2 ^ (- e).
Proof.
  unfold unit_channel. intros H.
  apply andb_true_iff in H as [H Hone]. apply andb_true_iff in H as [Hv Hzero].
  destruct s; [discriminate Hzero|]. split; [reflexivity|].
  unfold valid in Hv. cbn [valid_binary] in Hv.
  split; [exact Hv|].
  destruct (bounded_inv m e Hv) as [Hm24 _].
  rewrite one_eq in Hone.
  destruct (leb_finite_inv _ _ _ _ Hone) as [Hlt | [-> Hle]].
  - split; [lia|].
    assert (2 ^ 24 <= 2 ^ (- e)) by (apply Z.pow_le_mono_r; lia). lia.
  - split; [lia|]. exact Hle.
Qed.

(** On a channel of the unit interval the cast is defined, and its result
    is the quantisation of the channel in exact arithmetic: the rounding
    of the float product never reaches the next integer. *)
Lemma scaled_unit (c : float) :
  unit_channel c = true ->
  exists k, scaled c = Some k /\ quantized c = Some k /\ 0 <= k <= 255.
Proof.
  intros Hu. destruct c as [s | s | | s m e].
  - exists 0. destruct s; repeat split; lia.
  - destruct s; discriminate Hu.
  - discriminate Hu.
  - destruct (unit_channel_finite s m e Hu) as (-> & Hb & He & Hle).
    exists (255 * Zpos m / 2 ^ (- e)).
    assert (HP : 0 < 2 ^ (- e)) by (apply Z.pow_pos_nonneg; lia).
    assert (Hk : 0 <= 255 * Zpos m / 2 ^ (- e) <= 255).
    { split; [apply Z.div_pos; lia|].
      apply Z.div_le_upper_bound; lia. }
    split; [|split; [apply quantized_finite; lia | exact Hk]].
    unfold scaled, to_uint16. rewrite (mul_255_trunc m e Hb He Hle).
    replace ((0 <=? 255 * Zpos m / 2 ^ (- e)) && (255 * Zpos m / 2 ^ (- e) <=? 65535))%bool
      with true; [reflexivity|].
    symmetry. apply andb_true_iff. split; apply Z.leb_le; lia.
Qed.

Lemma packed_table_ok :
  forallb (fun hi => forallb (packed_cell hi) (seq 0 256)) (seq 0 256) = true.
Proof. vm_compute. reflexivity. Qed.

Lemma forallb_seq_pairs (f : nat -> nat -> bool) (rows cols : nat) :
  forallb (fun i => forallb (f i) (seq 0 cols)) (seq 0 rows) = true ->
  forall i j : nat, (i < rows)%nat -> (j < cols)%nat -> f i j = true.
Proof.
  intros Hall i j Hi Hj.
  rewrite forallb_forall in Hall.
  assert (Hrow : forallb (f i) (seq 0 cols) = true) by (apply Hall, in_seq; lia).
  rewrite forallb_forall in Hrow. apply Hrow, in_seq. lia.
Qed.

Lemma packed_ok_inv (n : Z) :
  packed_ok n = true ->
  to_int_exact (of_int n) = Some n
  /\ component_high (of_int n) = Some (n / 256)
  /\ component_low (of_int n) = Some (inject_Z (n mod 256)).
Proof.
  unfold packed_ok.
  destruct (to_int_exact (of_int n)) as [i|]; [|discriminate].
  destruct (component_high (of_int n)) as [hi|]; [|discriminate].
  destruct (component_low (of_int n)) as [lo|]; [|discriminate].
  intros Ht.
  apply andb_true_iff in Ht as [Ht Hden]. apply andb_true_iff in Ht as [Ht Hq].
  apply andb_true_iff in Ht as [Hi Hh].
  apply Z.eqb_eq in Hi, Hh, Hden. apply Qeq_bool_iff in Hq.
  subst i hi. repeat split.
  destruct lo as [num den]. cbn [Qden] in Hden.
  injection Hden as ->. unfold Qeq in Hq. cbn [Qnum Qden inject_Z] in Hq.
  unfold inject_Z. f_equal. f_equal. lia.
Qed.

Lemma packed_spec (n : Z) :
  0 <= n < 65536 ->
  to_int_exact (of_int n) = Some n
  /\ component_high (of_int n) = Some (n / 256)
  /\ component_low (of_int n) = Some (inject_Z (n mod 256)).
Proof.
  intros Hn. apply packed_ok_inv.
  pose proof (Z.div_mod n 256 ltac:(lia)) as Hdm.
  pose proof (Z.mod_pos_bound n 256 ltac:(lia)) as Hmod.
  assert (Hdiv : 0 <= n / 256 < 256).
  { split; [apply Z.div_pos; lia | apply Z.div_lt_upper_bound; lia]. }
  replace n with (Z.of_nat (Z.to_nat (n / 256)) * 256 + Z.of_nat (Z.to_nat (n mod 256)))
    by lia.
  change (packed_cell (Z.to_nat (n / 256)) (Z.to_nat (n mod 256)) = true).
  apply (forallb_seq_pairs packed_cell 256 256 packed_table_ok); lia.
Qed.

Lemma unit_color_channels (color : Color) :
  unit_color color = true ->
  unit_channel (r color) = true /\ unit_channel (g color) = true
  /\ unit_channel (b color) = true /\ unit_channel (a color) = true.
Proof.
  unfold unit_color. intros H.
  apply andb_true_iff in H as [H Ha]. apply andb_true_iff in H as [H Hb].
  apply andb_true_iff in H as [Hr Hg]. auto.
Qed.

Lemma two_bytes (hi lo : Z) :
  0 <= hi <= 255 -> 0 <= lo <= 255 ->
  0 <= hi * 256 + lo < 65536
  /\ (hi * 256 + lo) / 256 = hi /\ (hi * 256 + lo) mod 256 = lo.
Proof.
  intros Hhi Hlo. split; [lia|]. split.
  - symmetry. apply Z.div_unique with lo; lia.
  - symmetry. apply Z.mod_unique with hi; lia.
Qed.

(* ================================================================= *)
(** ** The attribute encoder *)

Local Close Scope Z_scope.

(** C2, as the code has it: the colour (0.5, 0.25, 0.75, 1.0) is encoded
    as the floats 32575 and 49151; the second is [191 * 256 + 255]. *)
Theorem scenario_color_encoding :
  exact_is (r scenario_color) (1 # 2) = true
  /\ exact_is (g scenario_color) (1 # 4) = true
  /\ exact_is (b scenario_color) (3 # 4) = true
  /\ exact_is (a scenario_color) 1 = true
  /\ exists f0 f1,
       attributeValue_Color scenario_color = Some [f0; f1]
       /\ to_int_exact f0 = Some 32575%Z
       /\ to_int_exact f1 = Some 49151%Z.
Proof.
  repeat split; try reflexivity.
  exists (of_int 32575), (of_int 49151). repeat split; reflexivity.
Qed.

(** C2, as the claim states it, fails: the second float of the encoding of
    (0.5, 0.25, 0.75, 1.0) is not 48896. *)
Lemma scenario_color_not_48896 :
  ~ exists f0 f1,
      attributeValue_Color scenario_color = Some [f0; f1]
      /\ to_int_exact f0 = Some 32575%Z
      /\ to_int_exact f1 = Some 48896%Z.
Proof.
  intros (f0 & f1 & Henc & _ & H1).
  assert (Hv : attributeValue_Color scenario_color
               = Some [of_int 32575; of_int 49151]) by reflexivity.
  rewrite Hv in Henc. injection Henc as _ <-.
  discriminate H1.
Qed.

(** C4: for a colour with its four channels in the unit interval, the
    encoder is defined and returns the two floats that hold exactly
    [floor(r*255)*256 + floor(g*255)] and [floor(b*255)*256 + floor(a*255)],
    each channel being cut to an integer between 0 and 255 by its cast
    before it is scaled by 256. *)
Theorem attributeValue_Color_packing (color : Color) :
  unit_color color = true ->
  exists qr qg qb qa : Z,
    (quantized (r color) = Some qr /\ quantized (g color) = Some qg
     /\ quantized (b color) = Some qb /\ quantized (a color) = Some qa)
    /\ (scaled (r color) = Some qr /\ scaled (g color) = Some qg
        /\ scaled (b color) = Some qb /\ scaled (a color) = Some qa)
    /\ (0 <= qr <= 255 /\ 0 <= qg <= 255 /\ 0 <= qb <= 255 /\ 0 <= qa <= 255)%Z
    /\ attributeValue_Color color
       = Some [of_int (qr * 256 + qg); of_int (qb * 256 + qa)]
    /\ to_int_exact (of_int (qr * 256 + qg)) = Some (qr * 256 + qg)%Z
    /\ to_int_exact (of_int (qb * 256 + qa)) = Some (qb * 256 + qa)%Z.
Proof.
  intros Hu. destruct (unit_color_channels color Hu) as (Hr & Hg & Hb & Ha).
  destruct (scaled_unit _ Hr) as (qr & Sr & Qr & Br).
  destruct (scaled_unit _ Hg) as (qg & Sg & Qg & Bg).
  destruct (scaled_unit _ Hb) as (qb & Sb & Qb & Bb).
  destruct (scaled_unit _ Ha) as (qa & Sa & Qa & Ba).
  exists qr, qg, qb, qa.
  destruct (two_bytes qr qg Br Bg) as (R0 & _ & _).
  destruct (two_bytes qb qa Bb Ba) as (R1 & _ & _).
  repeat split; try assumption; try tauto.
  - unfold attributeValue_Color. rewrite Sr, Sg, Sb, Sa. reflexivity.
  - apply packed_spec. exact R0.
  - apply packed_spec. exact R1.
Qed.

Lemma attributeValue_Color_packing_witness :
  unit_color scenario_color = true
  /\ exists qr qg qb qa : Z,
    (quantized (r scenario_color) = Some qr /\ quantized (g scenario_color) = Some qg
     /\ quantized (b scenario_color) = Some qb /\ quantized (a scenario_color) = Some qa)
    /\ (scaled (r scenario_color) = Some qr /\ scaled (g scenario_color) = Some qg
        /\ scaled (b scenario_color) = Some qb /\ scaled (a scenario_color) = Some qa)
    /\ (0 <= qr <= 255 /\ 0 <= qg <= 255 /\ 0 <= qb <= 255 /\ 0 <= qa <= 255)%Z
    /\ attributeValue_Color scenario_color
       = Some [of_int (qr * 256 + qg); of_int (qb * 256 + qa)]
    /\ to_int_exact (of_int (qr * 256 + qg)) = Some (qr * 256 + qg)%Z
    /\ to_int_exact (of_int (qb * 256 + qa)) = Some (qb * 256 + qa)%Z.
Proof.
  split; [reflexivity | apply (attributeValue_Color_packing scenario_color); reflexivity].
Defined.

(** C3: for a colour with its four channels in the unit interval, decoding
    the two encoded floats with [floor(f / 256)] and [f mod 256] gives back
    the four quantised channels [floor(c * 255)]. *)
Theorem color_round_trip (color : Color) :
  unit_color color = true ->
  exists (f0 f1 : float) (qr qg qb qa : Z),
    attributeValue_Color color = Some [f0; f1]
    /\ (quantized (r color) = Some qr /\ quantized (g color) = Some qg
        /\ quantized (b color) = Some qb /\ quantized (a color) = Some qa)
    /\ component_high f0 = Some qr
    /\ component_low f0 = Some (inject_Z qg)
    /\ component_high f1 = Some qb
    /\ component_low f1 = Some (inject_Z qa).
Proof.
  intros Hu. destruct (unit_color_channels color Hu) as (Hr & Hg & Hb & Ha).
  destruct (scaled_unit _ Hr) as (qr & Sr & Qr & Br).
  destruct (scaled_unit _ Hg) as (qg & Sg & Qg & Bg).
  destruct (scaled_unit _ Hb) as (qb & Sb & Qb & Bb).
  destruct (scaled_unit _ Ha) as (qa & Sa & Qa & Ba).
  exists (of_int (qr * 256 + qg)), (of_int (qb * 256 + qa)), qr, qg, qb, qa.
  destruct (two_bytes qr qg Br Bg) as (R0 & D0 & M0).
  destruct (two_bytes qb qa Bb Ba) as (R1 & D1 & M1).
  destruct (packed_spec _ R0) as (_ & H0 & L0).
  destruct (packed_spec _ R1) as (_ & H1 & L1).
  rewrite D0 in H0. rewrite M0 in L0. rewrite D1 in H1. rewrite M1 in L1.
  split.
  - unfold attributeValue_Color. rewrite Sr, Sg, Sb, Sa. reflexivity.
  - repeat split; assumption.
Qed.

Lemma color_round_trip_witness :
  unit_color scenario_color = true
  /\ exists (f0 f1 : float) (qr qg qb qa : Z),
    attributeValue_Color scenario_color = Some [f0; f1]
    /\ (quantized (r scenario_color) = Some qr /\ quantized (g scenario_color) = Some qg
        /\ quantized (b scenario_color) = Some qb /\ quantized (a scenario_color) = Some qa)
    /\ component_high f0 = Some qr
    /\ component_low f0 = Some (inject_Z qg)
    /\ component_high f1 = Some qb
    /\ component_low f1 = Some (inject_Z qa).
Proof.
  split; [reflexivity | apply (color_round_trip scenario_color); reflexivity].
Defined.

(* ================================================================= *)
(** ** The binders *)

Lemma emplace_back_loop_repeat (n : nat) (vertexVector : VertexVector) (v : Vertex) :
  emplace_back_loop n vertexVector v = vertexVector ++ repeat v n.
Proof.
  revert vertexVector. induction n as [|n IH]; intros vertexVector; cbn [emplace_back_loop repeat].
  - rewrite app_nil_r. reflexivity.
  - rewrite IH, <- app_assoc. reflexivity.
Qed.

Lemma emplace_back_until_repeat (length : nat) (vertexVector : VertexVector) (v : Vertex) :
  emplace_back_until length vertexVector v
  = vertexVector ++ repeat v (length - vertexSize vertexVector).
Proof. unfold emplace_back_until. apply emplace_back_loop_repeat. Qed.

Lemma emplace_back_until_size (length : nat) (vertexVector : VertexVector) (v : Vertex) :
  vertexSize (emplace_back_until length vertexVector v)
  = Nat.max (vertexSize vertexVector) length.
Proof.
  rewrite emplace_back_until_repeat. unfold vertexSize.
  rewrite length_app, repeat_length. lia.
Qed.

Lemma emplace_back_until_full (length : nat) (vertexVector : VertexVector) (v : Vertex) :
  (length <= vertexSize vertexVector)%nat ->
  emplace_back_until length vertexVector v = vertexVector.
Proof.
  intros Hle. rewrite emplace_back_until_repeat.
  replace (length - vertexSize vertexVector)%nat with 0%nat by lia.
  apply app_nil_r.
Qed.

Lemma halves_of_duplicate (value : FloatArray) :
  minHalf (zoomInterpolatedAttributeValue value value) = value
  /\ maxHalf (zoomInterpolatedAttributeValue value value) = value.
Proof.
  unfold minHalf, maxHalf, zoomInterpolatedAttributeValue.
  assert (Hhalf : Nat.div2 (length (value ++ value)) = length value).
  { rewrite length_app. replace (length value + length value)%nat
      with (2 * length value)%nat by lia. apply Nat.div2_double. }
  rewrite Hhalf. split.
  - rewrite firstn_app, Nat.sub_diag, firstn_all. cbn. apply app_nil_r.
  - rewrite skipn_app, Nat.sub_diag, skipn_all. reflexivity.
Qed.

Section BinderProperties.
Context `{Collaborators} {T : Type} `{PaintProperty T}.

(** C7: a constant binder and a source-function binder return the
    factor 0 at every zoom, and the binding of a constant binder is a
    constant binding whose two halves are the encoding of the caller's
    constant if it has one, of the stored constant otherwise. *)
Theorem constant_and_source_no_blend
    (bc : ConstantPaintPropertyBinder.t T)
    (bs : SourceFunctionPaintPropertyBinder.t T)
    (currentValue : PossiblyEvaluatedPropertyValue T) (z : R) :
  ConstantPaintPropertyBinder.interpolationFactor bc z = 0%R
  /\ SourceFunctionPaintPropertyBinder.interpolationFactor bs z = 0%R
  /\ exists value : FloatArray,
       ConstantPaintPropertyBinder.attributeBinding bc currentValue
       = ConstantBinding value
       /\ minHalf value = maxHalf value
       /\ minHalf value
          = attributeValue
              (match currentValue with
               | Constant c => c
               | _ => ConstantPaintPropertyBinder.constant bc
               end).
Proof.
  split; [reflexivity|]. split; [reflexivity|].
  unfold ConstantPaintPropertyBinder.attributeBinding.
  set (v := attributeValue (constantOr currentValue (ConstantPaintPropertyBinder.constant bc))).
  exists (zoomInterpolatedAttributeValue v v).
  destruct (halves_of_duplicate v) as [Hmin Hmax].
  split; [reflexivity|]. split; [congruence|].
  rewrite Hmin. unfold v. destruct currentValue; reflexivity.
Qed.

(** C5: a source-function or composite-function binder asked for its
    binding with a constant current value returns a constant binding
    whose two halves are the encoded constant, whether or not it holds a
    buffer; with any other current value it returns the buffer-backed
    binding on the buffer that [upload] stored. *)
Theorem attributeBinding_override (b : PaintPropertyBinder.t T) :
  PaintPropertyBinder.isFunctionBinder b = true ->
  (forall c : T,
     exists value : FloatArray,
       PaintPropertyBinder.attributeBinding b (Constant c)
       = Some (ConstantBinding value)
       /\ minHalf value = attributeValue c
       /\ maxHalf value = attributeValue c)
  /\ (forall (currentValue : PossiblyEvaluatedPropertyValue T) (buffer : VertexBuffer),
        isConstant currentValue = false ->
        PaintPropertyBinder.vertexBuffer b = Some buffer ->
        PaintPropertyBinder.attributeBinding b currentValue
        = Some (VariableBinding buffer 0
                  (match b with
                   | PaintPropertyBinder.CompositeFunctionB _ => Dimensions * 2
                   | _ => Dimensions
                   end))).
Proof.
  intros Hfun. split.
  - intros c.
    exists (zoomInterpolatedAttributeValue (attributeValue c) (attributeValue c)).
    split; [|apply halves_of_duplicate].
    destruct b as [bc | bs | bc]; [discriminate Hfun | |]; reflexivity.
  - intros currentValue buffer Hcur Hbuf.
    destruct b as [bc | bs | bc]; [discriminate Hfun | |];
      cbn [PaintPropertyBinder.vertexBuffer] in Hbuf;
      cbn [PaintPropertyBinder.attributeBinding];
      unfold SourceFunctionPaintPropertyBinder.attributeBinding,
             CompositeFunctionPaintPropertyBinder.attributeBinding;
      rewrite Hcur, Hbuf; reflexivity.
Qed.

(** C8: one call of a source-function binder's [populateVertexVector]
    evaluates the function for the feature, the default standing in for
    missing feature data; that one value goes to the statistics, and
    copies of its encoding are appended until the vertex sequence has the
    target length.  Nothing else of the function bears on the outcome. *)
Theorem source_populate_once (b : SourceFunctionPaintPropertyBinder.t T)
    (feature : GeometryTileFeature) (length : nat) (statistics : Statistics) :
  let evaluated :=
    SourceFunction.evaluate (SourceFunctionPaintPropertyBinder.function b) feature
                            (SourceFunctionPaintPropertyBinder.defaultValue b) in
  let b' := fst (SourceFunctionPaintPropertyBinder.populateVertexVector
                   b feature length statistics) in
  let statistics' := snd (SourceFunctionPaintPropertyBinder.populateVertexVector
                            b feature length statistics) in
  (SourceFunction.lookup (SourceFunctionPaintPropertyBinder.function b) feature = None ->
     evaluated = SourceFunctionPaintPropertyBinder.defaultValue b)
  /\ (forall v,
        SourceFunction.lookup (SourceFunctionPaintPropertyBinder.function b) feature = Some v ->
        evaluated = v)
  /\ statistics' = add statistics evaluated
  /\ SourceFunctionPaintPropertyBinder.vertexVector b'
     = SourceFunctionPaintPropertyBinder.vertexVector b
       ++ repeat (attributeValue evaluated)
                 (length - vertexSize (SourceFunctionPaintPropertyBinder.vertexVector b))
  /\ ((vertexSize (SourceFunctionPaintPropertyBinder.vertexVector b) <= length)%nat ->
      vertexSize (SourceFunctionPaintPropertyBinder.vertexVector b') = length)
  /\ SourceFunctionPaintPropertyBinder.function b'
     = SourceFunctionPaintPropertyBinder.function b
  /\ SourceFunctionPaintPropertyBinder.defaultValue b'
     = SourceFunctionPaintPropertyBinder.defaultValue b
  /\ SourceFunctionPaintPropertyBinder.vertexBuffer b'
     = SourceFunctionPaintPropertyBinder.vertexBuffer b
  /\ (forall fn' : SourceFunction.t T,
        SourceFunction.lookup fn' feature
        = SourceFunction.lookup (SourceFunctionPaintPropertyBinder.function b) feature ->
        let other :=
          SourceFunctionPaintPropertyBinder.populateVertexVector
            (SourceFunctionPaintPropertyBinder.mk fn'
               (SourceFunctionPaintPropertyBinder.defaultValue b)
               (SourceFunctionPaintPropertyBinder.vertexVector b)
               (SourceFunctionPaintPropertyBinder.vertexBuffer b))
            feature length statistics in
        SourceFunctionPaintPropertyBinder.vertexVector (fst other)
        = SourceFunctionPaintPropertyBinder.vertexVector b'
        /\ snd other = statistics').
Proof.
  cbn zeta. unfold SourceFunctionPaintPropertyBinder.populateVertexVector.
  cbn [fst snd SourceFunctionPaintPropertyBinder.vertexVector
       SourceFunctionPaintPropertyBinder.function
       SourceFunctionPaintPropertyBinder.defaultValue
       SourceFunctionPaintPropertyBinder.vertexBuffer].
  unfold SourceFunction.evaluate.
  split; [intros ->; reflexivity|].
  split; [intros v ->; reflexivity|].
  split; [reflexivity|].
  split; [apply emplace_back_until_repeat|].
  split; [intros Hle; rewrite emplace_back_until_size; lia|].
  do 3 (split; [reflexivity|]).
  intros fn' Hsame. rewrite Hsame. split; reflexivity.
Qed.

(** C9: every call of [populateVertexVector] on a source-function or
    composite-function binder evaluates the feature and adds the result to
    the statistics, whatever the target length; when the vertex sequence
    has already reached the target length the call appends nothing and
    the binder is unchanged, so the statistics can hold values of features
    that contributed no vertex. *)
Theorem populate_records_without_vertices (b : PaintPropertyBinder.t T)
    (feature : GeometryTileFeature) (length : nat) (statistics : Statistics) :
  PaintPropertyBinder.isFunctionBinder b = true ->
  snd (PaintPropertyBinder.populateVertexVector b feature length statistics)
  = match b with
    | PaintPropertyBinder.ConstantB _ => statistics
    | PaintPropertyBinder.SourceFunctionB f =>
        add statistics
            (SourceFunction.evaluate
               (SourceFunctionPaintPropertyBinder.function f) feature
               (SourceFunctionPaintPropertyBinder.defaultValue f))
    | PaintPropertyBinder.CompositeFunctionB f =>
        add_range statistics
            (CompositeFunction.evaluate
               (CompositeFunctionPaintPropertyBinder.function f)
               (snd (CompositeFunctionPaintPropertyBinder.coveringRanges f)) feature
               (CompositeFunctionPaintPropertyBinder.defaultValue f))
    end
  /\ ((length <= vertexSize (PaintPropertyBinder.vertexVector b))%nat ->
      PaintPropertyBinder.populateVertexVector b feature length statistics
      = (b, snd (PaintPropertyBinder.populateVertexVector b feature length statistics))).
Proof.
  intros Hfun.
  destruct b as [bc | bs | bc]; [discriminate Hfun | |];
    cbn [PaintPropertyBinder.vertexVector PaintPropertyBinder.populateVertexVector].
  - unfold SourceFunctionPaintPropertyBinder.populateVertexVector. cbn [snd].
    split; [reflexivity|]. intros Hle.
    rewrite emplace_back_until_full by exact Hle. destruct bs; reflexivity.
  - unfold CompositeFunctionPaintPropertyBinder.populateVertexVector. cbn [snd].
    split; [reflexivity|]. intros Hle.
    rewrite emplace_back_until_full by exact Hle. destruct bc; reflexivity.
Qed.

End BinderProperties.

Section BinderLife.
Context `{Collaborators} {T : Type} `{PaintProperty T}.

Lemma run_app (calls1 calls2 : list PaintPropertyBinder.Call) (st : (PaintPropertyBinder.State T)) :
  PaintPropertyBinder.run (calls1 ++ calls2) st = PaintPropertyBinder.run calls2 (PaintPropertyBinder.run calls1 st).
Proof. unfold PaintPropertyBinder.run. apply fold_left_app. Qed.

Lemma step_populate (b : PaintPropertyBinder.t T) (statistics : Statistics)
    (context : gl_Context) (feature : GeometryTileFeature) (length : nat) :
  PaintPropertyBinder.isFunctionBinder b = true ->
  let b' := PaintPropertyBinder.binderOf (PaintPropertyBinder.step (b, statistics, context)
                           (PaintPropertyBinder.Populate feature length)) in
  PaintPropertyBinder.isFunctionBinder b' = true
  /\ PaintPropertyBinder.vertexBuffer b' = PaintPropertyBinder.vertexBuffer b
  /\ exists v : Vertex,
       PaintPropertyBinder.vertexVector b'
       = emplace_back_until length (PaintPropertyBinder.vertexVector b) v.
Proof.
  intros Hfun. destruct b as [bc | bs | bc]; [discriminate Hfun | |]; cbn.
  - split; [reflexivity|]. split; [reflexivity|]. eexists. reflexivity.
  - split; [reflexivity|]. split; [reflexivity|]. eexists. reflexivity.
Qed.

Lemma step_upload (b : PaintPropertyBinder.t T) (statistics : Statistics)
    (context : gl_Context) :
  PaintPropertyBinder.isFunctionBinder b = true ->
  let b' := PaintPropertyBinder.binderOf (PaintPropertyBinder.step (b, statistics, context) PaintPropertyBinder.Upload) in
  PaintPropertyBinder.isFunctionBinder b' = true
  /\ PaintPropertyBinder.vertexBuffer b'
     = Some (snd (fst (createVertexBuffer context (PaintPropertyBinder.vertexVector b)))).
Proof.
  intros Hfun. destruct b as [bc | bs | bc]; [discriminate Hfun | |];
    cbn [PaintPropertyBinder.step PaintPropertyBinder.upload
         PaintPropertyBinder.vertexVector].
  - unfold SourceFunctionPaintPropertyBinder.upload.
    destruct (createVertexBuffer context (SourceFunctionPaintPropertyBinder.vertexVector bs))
      as [[context' buffer] moved]. cbn. split; reflexivity.
  - unfold CompositeFunctionPaintPropertyBinder.upload.
    destruct (createVertexBuffer context (CompositeFunctionPaintPropertyBinder.vertexVector bc))
      as [[context' buffer] moved]. cbn. split; reflexivity.
Qed.

Lemma run_populate (calls : list (GeometryTileFeature * nat)) :
  forall (b : PaintPropertyBinder.t T) (statistics : Statistics) (context : gl_Context),
    PaintPropertyBinder.isFunctionBinder b = true ->
    let b' := PaintPropertyBinder.binderOf (PaintPropertyBinder.run (PaintPropertyBinder.populateCalls calls)
                            (b, statistics, context)) in
    PaintPropertyBinder.isFunctionBinder b' = true
    /\ vertexSize (PaintPropertyBinder.vertexVector b')
       = Nat.max (vertexSize (PaintPropertyBinder.vertexVector b))
                 (list_max (map snd calls))
    /\ exists appended : VertexVector,
         PaintPropertyBinder.vertexVector b'
         = PaintPropertyBinder.vertexVector b ++ appended.
Proof.
  induction calls as [| [feature length] calls IH]; intros b statistics context Hfun.
  - cbn. split; [exact Hfun|]. split; [lia|]. exists []. symmetry. apply app_nil_r.
  - cbn [PaintPropertyBinder.populateCalls map fst snd list_max fold_right].
    cbn [PaintPropertyBinder.run fold_left].
    destruct (step_populate b statistics context feature length Hfun)
      as (Hfun1 & _ & v & Hvec).
    destruct (PaintPropertyBinder.step (b, statistics, context) (PaintPropertyBinder.Populate feature length))
      as [[b1 statistics1] context1] eqn:Estep.
    cbn [PaintPropertyBinder.binderOf fst] in Hfun1, Hvec.
    destruct (IH b1 statistics1 context1 Hfun1) as (Hfun2 & Hsize & appended & Happ).
    split; [exact Hfun2|]. split.
    + unfold PaintPropertyBinder.run, PaintPropertyBinder.populateCalls in Hsize.
      rewrite Hsize, Hvec.
      rewrite emplace_back_until_size.
      change (fold_right Nat.max 0%nat (map snd calls)) with (list_max (map snd calls)).
      lia.
    + unfold PaintPropertyBinder.run, PaintPropertyBinder.populateCalls in Happ.
      rewrite Happ, Hvec.
      rewrite emplace_back_until_repeat, <- app_assoc. eexists. reflexivity.
Qed.

Lemma create_function_binder (value : PossiblyEvaluatedPropertyValue T) (zoom : R)
    (defaultValue : T) :
  isConstant value = false ->
  PaintPropertyBinder.isFunctionBinder (PaintPropertyBinder.create value zoom defaultValue) = true
  /\ PaintPropertyBinder.vertexVector (PaintPropertyBinder.create value zoom defaultValue) = []
  /\ PaintPropertyBinder.vertexBuffer (PaintPropertyBinder.create value zoom defaultValue) = None.
Proof. destruct value; [discriminate | |]; intros _; repeat split. Qed.

(** C6: over any sequence of population calls on a source-function or
    composite-function binder, the length of the vertex sequence is the
    largest target length seen so far (for a binder that starts empty;
    in general the larger of the starting length and that maximum), and
    the sequence after any number of the calls is a prefix of the
    sequence after all of them: the length never decreases and vertices
    already appended keep their values. *)
Theorem populate_length_is_max (b : PaintPropertyBinder.t T)
    (calls : list (GeometryTileFeature * nat))
    (statistics : Statistics) (context : gl_Context) :
  PaintPropertyBinder.isFunctionBinder b = true ->
  let after := fun l : list (GeometryTileFeature * nat) =>
    PaintPropertyBinder.vertexVector
      (PaintPropertyBinder.binderOf
         (PaintPropertyBinder.run (PaintPropertyBinder.populateCalls l)
                                  (b, statistics, context))) in
  vertexSize (after calls)
  = Nat.max (vertexSize (PaintPropertyBinder.vertexVector b)) (list_max (map snd calls))
  /\ (PaintPropertyBinder.vertexVector b = [] ->
      vertexSize (after calls) = list_max (map snd calls))
  /\ (forall k : nat,
        (vertexSize (after (firstn k calls)) <= vertexSize (after calls))%nat
        /\ exists appended : VertexVector,
             after calls = after (firstn k calls) ++ appended).
Proof.
  intros Hfun after.
  destruct (run_populate calls b statistics context Hfun) as (_ & Hsize & _).
  split; [exact Hsize|]. split.
  - intros Hnil. unfold after. rewrite Hsize, Hnil. reflexivity.
  - intros k.
    assert (Hpre : exists appended : VertexVector,
               after calls = after (firstn k calls) ++ appended).
    { assert (Hsplit : PaintPropertyBinder.populateCalls calls
                       = PaintPropertyBinder.populateCalls (firstn k calls)
                         ++ PaintPropertyBinder.populateCalls (skipn k calls)).
      { unfold PaintPropertyBinder.populateCalls.
        rewrite <- map_app, firstn_skipn. reflexivity. }
      unfold after. rewrite Hsplit, run_app.
      destruct (run_populate (firstn k calls) b statistics context Hfun) as (Hfun1 & _ & _).
      destruct (PaintPropertyBinder.run
                  (PaintPropertyBinder.populateCalls (firstn k calls))
                  (b, statistics, context)) as [[b1 statistics1] context1].
      cbn [PaintPropertyBinder.binderOf fst] in Hfun1 |- *.
      destruct (run_populate (skipn k calls) b1 statistics1 context1 Hfun1)
        as (_ & _ & appended & Happ).
      exists appended. exact Happ. }
    split; [|exact Hpre].
    destruct Hpre as [appended ->]. unfold vertexSize. rewrite length_app. lia.
Qed.

Lemma attributeBinding_variable (b : PaintPropertyBinder.t T)
    (currentValue : PossiblyEvaluatedPropertyValue T) :
  PaintPropertyBinder.isFunctionBinder b = true ->
  isConstant currentValue = false ->
  PaintPropertyBinder.attributeBinding b currentValue
  = option_map
      (fun buffer =>
         VariableBinding buffer 0
           (match b with
            | PaintPropertyBinder.CompositeFunctionB _ => Dimensions * 2
            | _ => Dimensions
            end))
      (PaintPropertyBinder.vertexBuffer b).
Proof.
  intros Hfun Hcur.
  destruct b as [bc | bs | bc]; [discriminate Hfun | |];
    cbn [PaintPropertyBinder.attributeBinding PaintPropertyBinder.vertexBuffer];
    unfold SourceFunctionPaintPropertyBinder.attributeBinding,
           CompositeFunctionPaintPropertyBinder.attributeBinding;
    rewrite Hcur.
  - destruct (SourceFunctionPaintPropertyBinder.vertexBuffer bs); reflexivity.
  - destruct (CompositeFunctionPaintPropertyBinder.vertexBuffer bc); reflexivity.
Qed.

Lemma run_vertexBuffer (calls : list PaintPropertyBinder.Call) :
  forall (b : PaintPropertyBinder.t T) (statistics : Statistics) (context : gl_Context),
    PaintPropertyBinder.isFunctionBinder b = true ->
    let b' := PaintPropertyBinder.binderOf
                (PaintPropertyBinder.run calls (b, statistics, context)) in
    PaintPropertyBinder.isFunctionBinder b' = true
    /\ (forallb PaintPropertyBinder.isPopulate calls = true ->
        PaintPropertyBinder.vertexBuffer b' = PaintPropertyBinder.vertexBuffer b)
    /\ (forallb PaintPropertyBinder.isPopulate calls = false
        \/ PaintPropertyBinder.vertexBuffer b <> None ->
        PaintPropertyBinder.vertexBuffer b' <> None).
Proof.
  induction calls as [| c calls IH]; intros b statistics context Hfun.
  - cbn. split; [exact Hfun|]. split; [reflexivity|].
    intros [Hfalse | Hsome]; [discriminate Hfalse | exact Hsome].
  - cbn [PaintPropertyBinder.run fold_left forallb].
    destruct c as [feature length |].
    + destruct (step_populate b statistics context feature length Hfun)
        as (Hfun1 & Hbuf & _).
      destruct (PaintPropertyBinder.step (b, statistics, context)
                  (PaintPropertyBinder.Populate feature length))
        as [[b1 statistics1] context1].
      cbn [PaintPropertyBinder.binderOf fst] in Hfun1, Hbuf.
      destruct (IH b1 statistics1 context1 Hfun1) as (Hfun2 & Hsame & Hset).
      cbn [PaintPropertyBinder.isPopulate andb]. rewrite <- Hbuf.
      split; [exact Hfun2|]. split; [exact Hsame | exact Hset].
    + destruct (step_upload b statistics context Hfun) as (Hfun1 & Hbuf).
      destruct (PaintPropertyBinder.step (b, statistics, context) PaintPropertyBinder.Upload)
        as [[b1 statistics1] context1].
      cbn [PaintPropertyBinder.binderOf fst] in Hfun1, Hbuf.
      destruct (IH b1 statistics1 context1 Hfun1) as (Hfun2 & _ & Hset).
      cbn [PaintPropertyBinder.isPopulate andb].
      split; [exact Hfun2|]. split; [discriminate|].
      intros _. apply Hset. right. rewrite Hbuf. discriminate.
Qed.

(** C10: the buffer handle of a source-function or composite-function
    binder is absent when the binder is created, is left as it is by
    population and is set by upload.  So for a current value that is not
    a constant, after any calls among which there is an upload
    [attributeBinding] finds a buffer and returns the binding on it, and
    after population calls only it finds none and has no defined
    result. *)
Theorem vertexBuffer_set_by_upload (value currentValue : PossiblyEvaluatedPropertyValue T)
    (zoom : R) (defaultValue : T) (calls : list PaintPropertyBinder.Call)
    (statistics : Statistics) (context : gl_Context) :
  isConstant value = false ->
  isConstant currentValue = false ->
  let b' := PaintPropertyBinder.binderOf
              (PaintPropertyBinder.run calls
                 (PaintPropertyBinder.create value zoom defaultValue, statistics, context)) in
  (forallb PaintPropertyBinder.isPopulate calls = true ->
     PaintPropertyBinder.vertexBuffer b' = None
     /\ PaintPropertyBinder.attributeBinding b' currentValue = None)
  /\ (forallb PaintPropertyBinder.isPopulate calls = false ->
      exists buffer : VertexBuffer,
        PaintPropertyBinder.vertexBuffer b' = Some buffer
        /\ PaintPropertyBinder.attributeBinding b' currentValue
           = Some (VariableBinding buffer 0
                     (match b' with
                      | PaintPropertyBinder.CompositeFunctionB _ => Dimensions * 2
                      | _ => Dimensions
                      end))).
Proof.
  intros Hvalue Hcur b'.
  destruct (create_function_binder value zoom defaultValue Hvalue) as (Hfun & _ & Hnone).
  destruct (run_vertexBuffer calls _ statistics context Hfun) as (Hfun' & Hsame & Hset).
  fold b' in Hfun', Hsame, Hset.
  pose proof (attributeBinding_variable b' currentValue Hfun' Hcur) as Hbind.
  split.
  - intros Hpop. rewrite Hbind, (Hsame Hpop), Hnone. split; reflexivity.
  - intros Hup. specialize (Hset (or_introl Hup)).
    destruct (PaintPropertyBinder.vertexBuffer b') as [buffer|] eqn:Ebuf;
      [|exfalso; apply Hset; reflexivity].
    exists buffer. split; [reflexivity | exact Hbind].
Qed.

Lemma run_composite (calls : list PaintPropertyBinder.Call) :
  forall (b : CompositeFunctionPaintPropertyBinder.t T)
         (statistics : Statistics) (context : gl_Context),
  exists b' : CompositeFunctionPaintPropertyBinder.t T,
    PaintPropertyBinder.binderOf
      (PaintPropertyBinder.run calls
         (PaintPropertyBinder.CompositeFunctionB b, statistics, context))
    = PaintPropertyBinder.CompositeFunctionB b'
    /\ CompositeFunctionPaintPropertyBinder.coveringRanges b'
       = CompositeFunctionPaintPropertyBinder.coveringRanges b.
Proof.
  induction calls as [| c calls IH]; intros b statistics context.
  - exists b. split; reflexivity.
  - cbn [PaintPropertyBinder.run fold_left]. destruct c as [feature length |].
    + cbn [PaintPropertyBinder.step PaintPropertyBinder.populateVertexVector].
      unfold CompositeFunctionPaintPropertyBinder.populateVertexVector.
      match goal with
      | |- context [(PaintPropertyBinder.CompositeFunctionB ?b1, ?s1, ?c1)] =>
          destruct (IH b1 s1 c1) as (b' & Hrun & Hcov)
      end.
      exists b'. split; [exact Hrun | exact Hcov].
    + cbn [PaintPropertyBinder.step PaintPropertyBinder.upload].
      unfold CompositeFunctionPaintPropertyBinder.upload.
      destruct (createVertexBuffer context (CompositeFunctionPaintPropertyBinder.vertexVector b))
        as [[context' buffer] moved].
      match goal with
      | |- context [(PaintPropertyBinder.CompositeFunctionB ?b1, ?s1, ?c1)] =>
          destruct (IH b1 s1 c1) as (b' & Hrun & Hcov)
      end.
      exists b'. split; [exact Hrun | exact Hcov].
Qed.

(** C1, as the code has it: the factor of a composite-function binder is
    the interpolation contract taken at base 1, the linear one, whatever
    base the function declares, on the zoom bracket computed from the
    construction-time zoom.  That bracket is never recomputed: population
    and upload leave it as the constructor computed it, and the members
    called at draw time ([attributeBinding], [interpolationFactor]) are
    [const] and return no binder, so the factor of every later draw is
    taken on the same bracket. *)
Theorem composite_interpolationFactor_linear (fn : CompositeFunction.t T)
    (zoom : R) (defaultValue : T) (calls : list PaintPropertyBinder.Call)
    (statistics : Statistics) (context : gl_Context) (currentZoom : R) :
  exists b' : CompositeFunctionPaintPropertyBinder.t T,
    PaintPropertyBinder.binderOf
      (PaintPropertyBinder.run calls
         (PaintPropertyBinder.create (CompositeFn fn) zoom defaultValue, statistics, context))
    = PaintPropertyBinder.CompositeFunctionB b'
    /\ CompositeFunctionPaintPropertyBinder.coveringRanges b'
       = CompositeFunction.coveringRanges fn zoom
    /\ PaintPropertyBinder.interpolationFactor
         (PaintPropertyBinder.CompositeFunctionB b') currentZoom
       = util_interpolationFactor 1 (fst (CompositeFunction.coveringRanges fn zoom))
                                  currentZoom
    /\ util_interpolationFactor 1 (fst (CompositeFunction.coveringRanges fn zoom))
                                currentZoom
       = ((currentZoom - Range.min (fst (CompositeFunction.coveringRanges fn zoom)))
          / (Range.max (fst (CompositeFunction.coveringRanges fn zoom))
             - Range.min (fst (CompositeFunction.coveringRanges fn zoom))))%R.
Proof.
  cbn [PaintPropertyBinder.create].
  destruct (run_composite calls
              (CompositeFunctionPaintPropertyBinder.make fn zoom defaultValue)
              statistics context) as (b' & Hrun & Hcov).
  exists b'. split; [exact Hrun|]. split; [exact Hcov|]. split.
  - cbn [PaintPropertyBinder.interpolationFactor].
    unfold CompositeFunctionPaintPropertyBinder.interpolationFactor.
    rewrite Hcov. reflexivity.
  - unfold util_interpolationFactor.
    destruct (Req_dec_T 1 1) as [_ | Hne]; [reflexivity | exfalso; apply Hne; reflexivity].
Qed.

End BinderLife.

(* ================================================================= *)
(** ** The properties on the concrete instance *)

Section OnDemo.
#[local] Existing Instance Demo.collaborators.
#[local] Existing Instance Demo.scalar.

(** C1, as the claim states it, fails: for a composite function that
    declares base 2 over the bracket [0, 2], the binder's factor at zoom 1
    is 1/2, while the interpolation contract with the declared base
    gives 1/3. *)
Lemma composite_interpolationFactor_not_declared_base :
  PaintPropertyBinder.interpolationFactor Demo.compositeBinder 1%R = (1 / 2)%R
  /\ util_interpolationFactor
       (CompositeFunction.base Demo.compositeFn)
       (fst (CompositeFunction.coveringRanges Demo.compositeFn 1%R)) 1%R
     = (1 / 3)%R
  /\ PaintPropertyBinder.interpolationFactor Demo.compositeBinder 1%R
     <> util_interpolationFactor
          (CompositeFunction.base Demo.compositeFn)
          (fst (CompositeFunction.coveringRanges Demo.compositeFn 1%R)) 1%R.
Proof.
  assert (Hcode : PaintPropertyBinder.interpolationFactor Demo.compositeBinder 1%R
                  = (1 / 2)%R).
  { unfold Demo.compositeBinder, Demo.compositeFn.
    cbn [PaintPropertyBinder.create PaintPropertyBinder.interpolationFactor].
    unfold CompositeFunctionPaintPropertyBinder.interpolationFactor,
           CompositeFunctionPaintPropertyBinder.make.
    cbn [CompositeFunctionPaintPropertyBinder.coveringRanges
         CompositeFunction.coveringRanges fst].
    unfold util_interpolationFactor. cbn [Range.min Range.max].
    destruct (Req_dec_T 1 1) as [_ | Hne]; [lra | exfalso; apply Hne; reflexivity]. }
  assert (Hspec : util_interpolationFactor
                    (CompositeFunction.base Demo.compositeFn)
                    (fst (CompositeFunction.coveringRanges Demo.compositeFn 1%R)) 1%R
                  = (1 / 3)%R).
  { unfold Demo.compositeFn.
    cbn [CompositeFunction.coveringRanges CompositeFunction.base fst].
    unfold util_interpolationFactor. cbn [Range.min Range.max].
    destruct (Req_dec_T 2 1) as [Heq | _]; [exfalso; lra|].
    replace (1 - 0)%R with 1%R by lra.
    replace (2 - 0)%R with (1 + 1)%R by lra.
    rewrite Rpower_plus, Rpower_1 by lra. lra. }
  split; [exact Hcode|]. split; [exact Hspec|].
  rewrite Hcode, Hspec. lra.
Qed.

Lemma attributeBinding_override_witness :
  (PaintPropertyBinder.isFunctionBinder Demo.sourceBinder = true
   /\ PaintPropertyBinder.vertexBuffer Demo.sourceBinder = None
   /\ exists value : FloatArray,
        PaintPropertyBinder.attributeBinding Demo.sourceBinder (Constant (of_int 5))
        = Some (ConstantBinding value)
        /\ minHalf value = [of_int 5]
        /\ maxHalf value = [of_int 5])
  /\ (PaintPropertyBinder.isFunctionBinder Demo.uploaded = true
      /\ isConstant (SourceFn Demo.sourceFn) = false
      /\ PaintPropertyBinder.vertexBuffer Demo.uploaded
         = Some (0%nat, [[of_int 7]; [of_int 7]; [of_int 7]])
      /\ (exists value : FloatArray,
            PaintPropertyBinder.attributeBinding Demo.uploaded (Constant (of_int 5))
            = Some (ConstantBinding value)
            /\ minHalf value = [of_int 5]
            /\ maxHalf value = [of_int 5])
      /\ PaintPropertyBinder.attributeBinding Demo.uploaded (SourceFn Demo.sourceFn)
         = Some (VariableBinding (0%nat, [[of_int 7]; [of_int 7]; [of_int 7]]) 0
                   (match Demo.uploaded with
                    | PaintPropertyBinder.CompositeFunctionB _ => Dimensions * 2
                    | _ => Dimensions
                    end))).
Proof.
  split.
  - split; [reflexivity|]. split; [reflexivity|].
    exact (proj1 (attributeBinding_override Demo.sourceBinder eq_refl) (of_int 5)).
  - split; [reflexivity|]. split; [reflexivity|]. split; [reflexivity|].
    destruct (attributeBinding_override Demo.uploaded eq_refl) as [Hconstant Hvariable].
    split.
    + exact (Hconstant (of_int 5)).
    + apply Hvariable; reflexivity.
Defined.

Lemma populate_length_is_max_witness :
  PaintPropertyBinder.isFunctionBinder Demo.sourceBinder = true
  /\ (let after := fun l : list (GeometryTileFeature * nat) =>
        PaintPropertyBinder.vertexVector
          (PaintPropertyBinder.binderOf
             (PaintPropertyBinder.run (PaintPropertyBinder.populateCalls l)
                                      (Demo.sourceBinder, Demo.statisticsOf [], Demo.context0))) in
      vertexSize (after Demo.features)
      = Nat.max (vertexSize (PaintPropertyBinder.vertexVector Demo.sourceBinder))
                (list_max (map snd Demo.features))
      /\ (PaintPropertyBinder.vertexVector Demo.sourceBinder = [] ->
          vertexSize (after Demo.features) = list_max (map snd Demo.features))
      /\ (forall k : nat,
            (vertexSize (after (firstn k Demo.features))
             <= vertexSize (after Demo.features))%nat
            /\ exists appended : VertexVector,
                 after Demo.features = after (firstn k Demo.features) ++ appended)).
Proof.
  split; [reflexivity|].
  apply (populate_length_is_max Demo.sourceBinder Demo.features (Demo.statisticsOf []) Demo.context0).
  reflexivity.
Defined.

Lemma source_populate_once_witness :
  let b := SourceFunctionPaintPropertyBinder.make Demo.sourceFn zero in
  let result := SourceFunctionPaintPropertyBinder.populateVertexVector b 1%nat 2%nat (Demo.statisticsOf []) in
  SourceFunction.lookup Demo.sourceFn 1%nat = None
  /\ snd result = Demo.statisticsOf [zero]
  /\ SourceFunctionPaintPropertyBinder.vertexVector (fst result) = [[zero]; [zero]].
Proof.
  intros b result.
  destruct (source_populate_once b 1%nat 2%nat (Demo.statisticsOf [])) as (Hdefault & _ & Hstat & Hvec & _).
  split; [reflexivity|]. split.
  - unfold result. rewrite Hstat, (Hdefault eq_refl). reflexivity.
  - unfold result. rewrite Hvec, (Hdefault eq_refl). reflexivity.
Defined.

Lemma populate_records_without_vertices_witness :
  PaintPropertyBinder.isFunctionBinder Demo.populated = true
  /\ (2 <= vertexSize (PaintPropertyBinder.vertexVector Demo.populated))%nat
  /\ PaintPropertyBinder.populateVertexVector Demo.populated 1%nat 2%nat
       (Demo.statisticsOf [of_int 7])
     = (Demo.populated, Demo.statisticsOf [of_int 7; zero])
  /\ PaintPropertyBinder.isFunctionBinder Demo.compositeBinder = true
  /\ snd (PaintPropertyBinder.populateVertexVector Demo.compositeBinder 0%nat 2%nat
            (Demo.statisticsOf []))
     = Demo.statisticsOf [of_int 7; of_int 9].
Proof.
  split; [reflexivity|]. split; [cbn; lia|]. split.
  - destruct (populate_records_without_vertices Demo.populated 1%nat 2%nat
                (Demo.statisticsOf [of_int 7]) eq_refl) as [Hrecorded Hsame].
    rewrite Hsame by (cbn; lia). rewrite Hrecorded. reflexivity.
  - split; [reflexivity|].
    destruct (populate_records_without_vertices Demo.compositeBinder 0%nat 2%nat
                (Demo.statisticsOf []) eq_refl) as [Hrecorded _].
    rewrite Hrecorded. reflexivity.
Defined.

Lemma vertexBuffer_set_by_upload_witness :
  isConstant (SourceFn Demo.sourceFn) = false
  /\ (let b' := PaintPropertyBinder.binderOf
                  (PaintPropertyBinder.run
                     Demo.populateThenUpload
                     (PaintPropertyBinder.create (SourceFn Demo.sourceFn) 1%R zero,
                      Demo.statisticsOf [], Demo.context0)) in
      (forallb PaintPropertyBinder.isPopulate Demo.populateThenUpload = true ->
         PaintPropertyBinder.vertexBuffer b' = None
         /\ PaintPropertyBinder.attributeBinding b' (SourceFn Demo.sourceFn) = None)
      /\ (forallb PaintPropertyBinder.isPopulate Demo.populateThenUpload = false ->
          exists buffer : VertexBuffer,
            PaintPropertyBinder.vertexBuffer b' = Some buffer
            /\ PaintPropertyBinder.attributeBinding b' (SourceFn Demo.sourceFn)
               = Some (VariableBinding buffer 0
                         (match b' with
                          | PaintPropertyBinder.CompositeFunctionB _ => Dimensions * 2
                          | _ => Dimensions
                          end)))).
Proof.
  split; [reflexivity|].
  apply (vertexBuffer_set_by_upload (SourceFn Demo.sourceFn) (SourceFn Demo.sourceFn)
           1%R zero Demo.populateThenUpload
           (Demo.statisticsOf []) Demo.context0); reflexivity.
Defined.

End OnDemo.

(* ================================================================= *)
(** ** Further properties of the encoder and of single binders *)

Lemma pair_halves (min max : FloatArray) :
  length min = length max ->
  minHalf (zoomInterpolatedAttributeValue min max) = min
  /\ maxHalf (zoomInterpolatedAttributeValue min max) = max.
Proof.
  intros Hlen. unfold minHalf, maxHalf, zoomInterpolatedAttributeValue.
  replace (length (min ++ max)) with (2 * length min)%nat
    by (rewrite length_app; lia).
  rewrite Nat.div2_double. split.
  - rewrite firstn_app, Nat.sub_diag, firstn_all. cbn. apply app_nil_r.
  - rewrite skipn_app, Nat.sub_diag, skipn_all. reflexivity.
Qed.

(** X1: pairing two arrays of the same width gives an array of twice that
    width whose first half is the first array and whose second half is
    the second. *)
Theorem zoomInterpolatedAttributeValue_halves (min max : FloatArray) :
  length min = length max ->
  length (zoomInterpolatedAttributeValue min max) = (2 * length min)%nat
  /\ minHalf (zoomInterpolatedAttributeValue min max) = min
  /\ maxHalf (zoomInterpolatedAttributeValue min max) = max.
Proof.
  intros Hlen. unfold minHalf, maxHalf, zoomInterpolatedAttributeValue.
  assert (Htotal : length (min ++ max) = (2 * length min)%nat)
    by (rewrite length_app; lia).
  rewrite Htotal, Nat.div2_double. split; [reflexivity|]. split.
  - rewrite firstn_app, Nat.sub_diag, firstn_all. cbn. apply app_nil_r.
  - rewrite skipn_app, Nat.sub_diag, skipn_all. reflexivity.
Qed.

Lemma zoomInterpolatedAttributeValue_halves_witness :
  length [of_int 1] = length [of_int 2]
  /\ length (zoomInterpolatedAttributeValue [of_int 1] [of_int 2])
     = (2 * length [of_int 1])%nat
  /\ minHalf (zoomInterpolatedAttributeValue [of_int 1] [of_int 2]) = [of_int 1]
  /\ maxHalf (zoomInterpolatedAttributeValue [of_int 1] [of_int 2]) = [of_int 2].
Proof.
  split; [reflexivity|].
  apply (zoomInterpolatedAttributeValue_halves [of_int 1] [of_int 2]). reflexivity.
Defined.

Section SingleBinders.
Context `{Collaborators} {T : Type} `{PaintProperty T}.

(** X2: one call of a composite-function binder's [populateVertexVector]
    evaluates the function over the inner stop bracket kept since
    construction, adds that range to the statistics, and appends copies of
    one vertex up to the target length; when the two ends encode to the
    same width, the halves of every appended vertex are the encoded
    minimum and the encoded maximum.  The bracket and the buffer handle
    are left as they were. *)
Theorem composite_populate_pairs (b : CompositeFunctionPaintPropertyBinder.t T)
    (feature : GeometryTileFeature) (length : nat) (statistics : Statistics) :
  let range :=
    CompositeFunction.evaluate (CompositeFunctionPaintPropertyBinder.function b)
      (snd (CompositeFunctionPaintPropertyBinder.coveringRanges b)) feature
      (CompositeFunctionPaintPropertyBinder.defaultValue b) in
  let result :=
    CompositeFunctionPaintPropertyBinder.populateVertexVector b feature length statistics in
  List.length (attributeValue (Range.min range))
  = List.length (attributeValue (Range.max range)) ->
  snd result = add_range statistics range
  /\ CompositeFunctionPaintPropertyBinder.coveringRanges (fst result)
     = CompositeFunctionPaintPropertyBinder.coveringRanges b
  /\ CompositeFunctionPaintPropertyBinder.vertexBuffer (fst result)
     = CompositeFunctionPaintPropertyBinder.vertexBuffer b
  /\ exists appended : VertexVector,
       CompositeFunctionPaintPropertyBinder.vertexVector (fst result)
       = CompositeFunctionPaintPropertyBinder.vertexVector b ++ appended
       /\ List.length appended
          = (length - vertexSize (CompositeFunctionPaintPropertyBinder.vertexVector b))%nat
       /\ forall v : Vertex, In v appended ->
            minHalf v = attributeValue (Range.min range)
            /\ maxHalf v = attributeValue (Range.max range).
Proof.
  intros range result Hwidth.
  unfold result, CompositeFunctionPaintPropertyBinder.populateVertexVector.
  cbn [fst snd CompositeFunctionPaintPropertyBinder.coveringRanges
       CompositeFunctionPaintPropertyBinder.vertexBuffer
       CompositeFunctionPaintPropertyBinder.vertexVector].
  fold range. do 3 (split; [reflexivity|]).
  rewrite emplace_back_until_repeat. eexists. split; [reflexivity|].
  split; [apply repeat_length|].
  intros v Hin. apply repeat_spec in Hin. subst v.
  apply pair_halves. exact Hwidth.
Qed.

(** X3: a binder created from a constant value is inert: any sequence of
    population and upload calls returns it, the statistics and the context
    as they were; it never holds a buffer, its factor is 0, and its
    binding is always the constant binding of the caller's constant or of
    the constant it was created from. *)
Theorem constant_binder_inert (c : T) (zoom : R) (defaultValue : T)
    (calls : list PaintPropertyBinder.Call) (statistics : Statistics)
    (context : gl_Context) (currentValue : PossiblyEvaluatedPropertyValue T)
    (currentZoom : R) :
  let b := PaintPropertyBinder.create (Constant c) zoom defaultValue in
  PaintPropertyBinder.run calls (b, statistics, context) = (b, statistics, context)
  /\ PaintPropertyBinder.vertexBuffer b = None
  /\ PaintPropertyBinder.interpolationFactor b currentZoom = 0%R
  /\ PaintPropertyBinder.attributeBinding b currentValue
     = Some (ConstantBinding
               (zoomInterpolatedAttributeValue
                  (attributeValue (constantOr currentValue c))
                  (attributeValue (constantOr currentValue c)))).
Proof.
  cbn zeta. split; [|repeat split].
  induction calls as [| call calls IH]; [reflexivity|].
  cbn [PaintPropertyBinder.run fold_left]. destruct call as [feature length |]; exact IH.
Qed.

End SingleBinders.

Lemma fill_nth (items : list (Vertex * nat)) :
  forall (vertexVector : VertexVector) (i : nat),
    nth_error (fill vertexVector items) i
    = if (i <? vertexSize vertexVector)%nat
      then nth_error vertexVector i
      else option_map fst (find (fun vl => (i <? snd vl)%nat) items).
Proof.
  induction items as [| [v length] items IH]; intros vertexVector i; cbn [fill find snd].
  - destruct (Nat.ltb_spec i (vertexSize vertexVector)) as [Hlt | Hge]; [reflexivity|].
    apply nth_error_None. exact Hge.
  - rewrite IH, emplace_back_until_size, emplace_back_until_repeat.
    unfold vertexSize.
    destruct (Nat.ltb_spec i (List.length vertexVector)) as [Hlt | Hge].
    + replace (i <? Nat.max (List.length vertexVector) length)%nat with true
        by (symmetry; apply Nat.ltb_lt; lia).
      apply nth_error_app1. exact Hlt.
    + destruct (Nat.ltb_spec i length) as [Hin | Hout].
      * replace (i <? Nat.max (List.length vertexVector) length)%nat with true
          by (symmetry; apply Nat.ltb_lt; lia).
        rewrite nth_error_app2 by exact Hge.
        rewrite nth_error_repeat by lia. reflexivity.
      * replace (i <? Nat.max (List.length vertexVector) length)%nat with false
          by (symmetry; apply Nat.ltb_ge; lia).
        reflexivity.
Qed.

Section VertexOwnership.
Context `{Collaborators} {T : Type} `{PaintProperty T}.

Lemma run_source_fill (calls : list (GeometryTileFeature * nat)) :
  forall (b : SourceFunctionPaintPropertyBinder.t T) (statistics : Statistics)
         (context : gl_Context),
    PaintPropertyBinder.vertexVector
      (PaintPropertyBinder.binderOf
         (PaintPropertyBinder.run (PaintPropertyBinder.populateCalls calls)
            (PaintPropertyBinder.SourceFunctionB b, statistics, context)))
    = fill (SourceFunctionPaintPropertyBinder.vertexVector b)
           (map (fun fl =>
                   (attributeValue
                      (SourceFunction.evaluate
                         (SourceFunctionPaintPropertyBinder.function b) (fst fl)
                         (SourceFunctionPaintPropertyBinder.defaultValue b)),
                    snd fl))
                calls).
Proof.
  induction calls as [| [feature length] calls IH]; intros b statistics context.
  - reflexivity.
  - cbn [PaintPropertyBinder.populateCalls map fst snd fill].
    cbn [PaintPropertyBinder.run fold_left PaintPropertyBinder.step
         PaintPropertyBinder.populateVertexVector].
    unfold SourceFunctionPaintPropertyBinder.populateVertexVector at 1.
    exact (IH _ _ _).
Qed.

Lemma run_composite_fill (calls : list (GeometryTileFeature * nat)) :
  forall (b : CompositeFunctionPaintPropertyBinder.t T) (statistics : Statistics)
         (context : gl_Context),
    PaintPropertyBinder.vertexVector
      (PaintPropertyBinder.binderOf
         (PaintPropertyBinder.run (PaintPropertyBinder.populateCalls calls)
            (PaintPropertyBinder.CompositeFunctionB b, statistics, context)))
    = fill (CompositeFunctionPaintPropertyBinder.vertexVector b)
           (map (fun fl =>
                   (let range :=
                      CompositeFunction.evaluate
                        (CompositeFunctionPaintPropertyBinder.function b)
                        (snd (CompositeFunctionPaintPropertyBinder.coveringRanges b))
                        (fst fl)
                        (CompositeFunctionPaintPropertyBinder.defaultValue b) in
                    zoomInterpolatedAttributeValue (attributeValue (Range.min range))
                                                   (attributeValue (Range.max range)),
                    snd fl))
                calls).
Proof.
  induction calls as [| [feature length] calls IH]; intros b statistics context.
  - reflexivity.
  - cbn [PaintPropertyBinder.populateCalls map fst snd fill].
    cbn [PaintPropertyBinder.run fold_left PaintPropertyBinder.step
         PaintPropertyBinder.populateVertexVector].
    unfold CompositeFunctionPaintPropertyBinder.populateVertexVector at 1.
    exact (IH _ _ _).
Qed.

(** X4: after a sequence of population calls on a newly constructed
    source-function binder, vertex [i] holds the encoded value of the
    first feature in the sequence whose target length exceeds [i], and
    there is no vertex [i] when no target length does; for a
    composite-function binder the vertex is the pair of the encoded ends
    of that feature's range over the construction-time inner bracket. *)
Theorem vertex_of_first_covering_feature
    (calls : list (GeometryTileFeature * nat)) (statistics : Statistics)
    (context : gl_Context) (defaultValue : T) (i : nat) :
  (forall fn : SourceFunction.t T,
     nth_error
       (PaintPropertyBinder.vertexVector
          (PaintPropertyBinder.binderOf
             (PaintPropertyBinder.run (PaintPropertyBinder.populateCalls calls)
                (PaintPropertyBinder.SourceFunctionB
                   (SourceFunctionPaintPropertyBinder.make fn defaultValue),
                 statistics, context))))
       i
     = option_map
         (fun fl => attributeValue (SourceFunction.evaluate fn (fst fl) defaultValue))
         (find (fun fl => (i <? snd fl)%nat) calls))
  /\ (forall (fn : CompositeFunction.t T) (zoom : R),
        nth_error
          (PaintPropertyBinder.vertexVector
             (PaintPropertyBinder.binderOf
                (PaintPropertyBinder.run (PaintPropertyBinder.populateCalls calls)
                   (PaintPropertyBinder.CompositeFunctionB
                      (CompositeFunctionPaintPropertyBinder.make fn zoom defaultValue),
                    statistics, context))))
          i
        = option_map
            (fun fl =>
               let range :=
                 CompositeFunction.evaluate fn
                   (snd (CompositeFunction.coveringRanges fn zoom)) (fst fl) defaultValue in
               zoomInterpolatedAttributeValue (attributeValue (Range.min range))
                                              (attributeValue (Range.max range)))
            (find (fun fl => (i <? snd fl)%nat) calls)).
Proof.
  assert (Hfind : forall (A : Type) (f : GeometryTileFeature * nat -> A),
             option_map fst
               (find (fun vl : A * nat => (i <? snd vl)%nat)
                     (map (fun fl => (f fl, snd fl)) calls))
             = option_map f (find (fun fl => (i <? snd fl)%nat) calls)).
  { intros A f. induction calls as [| fl calls IH]; [reflexivity|].
    cbn [map find snd]. destruct (i <? snd fl)%nat; [reflexivity | exact IH]. }
  split.
  - intros fn. rewrite run_source_fill, fill_nth.
    cbn [SourceFunctionPaintPropertyBinder.make
         SourceFunctionPaintPropertyBinder.vertexVector
         SourceFunctionPaintPropertyBinder.function
         SourceFunctionPaintPropertyBinder.defaultValue vertexSize List.length].
    rewrite Nat.ltb_irrefl || replace (i <? 0)%nat with false by (symmetry; apply Nat.ltb_ge; lia).
    apply Hfind.
  - intros fn zoom. rewrite run_composite_fill, fill_nth.
    cbn [CompositeFunctionPaintPropertyBinder.make
         CompositeFunctionPaintPropertyBinder.vertexVector
         CompositeFunctionPaintPropertyBinder.function
         CompositeFunctionPaintPropertyBinder.coveringRanges
         CompositeFunctionPaintPropertyBinder.defaultValue vertexSize List.length].
    replace (i <? 0)%nat with false by (symmetry; apply Nat.ltb_ge; lia).
    apply (Hfind _ (fun fl =>
             let range :=
               CompositeFunction.evaluate fn
                 (snd (CompositeFunction.coveringRanges fn zoom)) (fst fl) defaultValue in
             zoomInterpolatedAttributeValue (attributeValue (Range.min range))
                                            (attributeValue (Range.max range)))).
Qed.

End VertexOwnership.

Section UploadAfterPopulation.
Context `{Collaborators} {T : Type} `{PaintProperty T}.

Lemma run_populate_context (calls : list (GeometryTileFeature * nat)) :
  forall (b : PaintPropertyBinder.t T) (statistics : Statistics) (context : gl_Context),
    snd (PaintPropertyBinder.run (PaintPropertyBinder.populateCalls calls)
           (b, statistics, context)) = context.
Proof.
  induction calls as [| [feature length] calls IH]; intros b statistics context.
  - reflexivity.
  - cbn [PaintPropertyBinder.populateCalls map PaintPropertyBinder.run fold_left
         PaintPropertyBinder.step fst snd].
    destruct (PaintPropertyBinder.populateVertexVector b feature length statistics)
      as [b1 statistics1].
    exact (IH b1 statistics1 context).
Qed.

(** X5: an upload that follows the population of a newly created
    source-function or composite-function binder hands the context the
    vertex sequence as populated, whose length is the largest target
    length, stores the buffer the context returns, keeps of the sequence
    what the context leaves of it, passes on the context's new state and
    leaves the statistics alone. *)
Theorem upload_stores_populated (value : PossiblyEvaluatedPropertyValue T)
    (zoom : R) (defaultValue : T) (calls : list (GeometryTileFeature * nat))
    (statistics : Statistics) (context : gl_Context) :
  isConstant value = false ->
  let st := PaintPropertyBinder.run (PaintPropertyBinder.populateCalls calls)
              (PaintPropertyBinder.create value zoom defaultValue, statistics, context) in
  let populated := PaintPropertyBinder.vertexVector (PaintPropertyBinder.binderOf st) in
  let after := PaintPropertyBinder.step st PaintPropertyBinder.Upload in
  vertexSize populated = list_max (map snd calls)
  /\ PaintPropertyBinder.vertexBuffer (PaintPropertyBinder.binderOf after)
     = Some (snd (fst (createVertexBuffer context populated)))
  /\ PaintPropertyBinder.vertexVector (PaintPropertyBinder.binderOf after)
     = snd (createVertexBuffer context populated)
  /\ snd after = fst (fst (createVertexBuffer context populated))
  /\ snd (fst after) = snd (fst st).
Proof.
  intros Hvalue st populated after.
  destruct (create_function_binder value zoom defaultValue Hvalue) as (Hfun & Hnil & _).
  destruct (run_populate calls _ statistics context Hfun) as (Hfun' & Hsize & _).
  pose proof (run_populate_context calls
                (PaintPropertyBinder.create value zoom defaultValue) statistics context)
    as Hctx.
  fold st in Hfun', Hsize, Hctx. rewrite Hnil in Hsize.
  split; [exact Hsize|].
  unfold after, populated. clear after populated Hsize.
  destruct st as [[b1 statistics1] context1].
  cbn [snd fst PaintPropertyBinder.binderOf] in *. subst context1.
  destruct b1 as [bc | bs | bc]; [discriminate Hfun' | |];
    cbn [PaintPropertyBinder.step PaintPropertyBinder.upload PaintPropertyBinder.vertexVector].
  - unfold SourceFunctionPaintPropertyBinder.upload.
    destruct (createVertexBuffer context (SourceFunctionPaintPropertyBinder.vertexVector bs))
      as [[context' buffer] moved]. repeat split.
  - unfold CompositeFunctionPaintPropertyBinder.upload.
    destruct (createVertexBuffer context (CompositeFunctionPaintPropertyBinder.vertexVector bc))
      as [[context' buffer] moved]. repeat split.
Qed.

End UploadAfterPopulation.

(* ================================================================= *)
(** ** The uniform names *)

Section UniformNames.
Import String.

Lemma append_length (s1 s2 : string) :
  String.length (String.append s1 s2) = (String.length s1 + String.length s2)%nat.
Proof. induction s1 as [| c s1 IH]; cbn; [reflexivity | rewrite IH; reflexivity]. Qed.

Lemma append_inj_l (suffix : string) :
  forall s1 s2 : string,
    String.append s1 suffix = String.append s2 suffix -> s1 = s2.
Proof.
  induction s1 as [| c1 s1 IH]; intros [| c2 s2] Heq.
  - reflexivity.
  - exfalso. apply (f_equal String.length) in Heq.
    cbn [String.append String.length] in Heq. rewrite append_length in Heq. lia.
  - exfalso. apply (f_equal String.length) in Heq.
    cbn [String.append String.length] in Heq. rewrite append_length in Heq. lia.
  - cbn [String.append] in Heq. injection Heq as -> Hrest.
    f_equal. apply IH. exact Hrest.
Qed.

Lemma substring_append_l (s1 s2 : string) :
  substring 0 (String.length s1) (String.append s1 s2) = s1.
Proof.
  induction s1 as [| c s1 IH]; cbn [String.append String.length substring].
  - destruct s2; reflexivity.
  - rewrite IH. reflexivity.
Qed.

Lemma substring_append_r (s1 s2 : string) :
  substring (String.length s1) (String.length s2) (String.append s1 s2) = s2.
Proof.
  induction s1 as [| c s1 IH]; cbn [String.append String.length substring].
  - induction s2 as [| c s2 IH2]; cbn [String.length substring]; [reflexivity|].
    rewrite IH2. reflexivity.
  - exact IH.
Qed.

(** X6: the uniform of an attribute is named by the attribute's name
    followed by the two characters [_t]: the name is two characters
    longer, starts with the attribute's name and ends with [_t].  Two
    attributes have the same uniform name only when they have the same
    name, so attributes with distinct names get distinct uniforms. *)
Theorem uniform_names_distinct (attributeNames : list string) :
  (forall a1 a2 : string,
     InterpolationUniform.name a1 = InterpolationUniform.name a2 <-> a1 = a2)
  /\ (forall a : string,
        String.length (InterpolationUniform.name a) = (String.length a + 2)%nat
        /\ substring 0 (String.length a) (InterpolationUniform.name a) = a
        /\ substring (String.length a) 2 (InterpolationUniform.name a) = "_t"%string)
  /\ (NoDup attributeNames <-> NoDup (map InterpolationUniform.name attributeNames)).
Proof.
  assert (Hinj : forall a1 a2 : string,
             InterpolationUniform.name a1 = InterpolationUniform.name a2 -> a1 = a2)
    by (intros a1 a2; apply append_inj_l).
  split; [|split].
  - intros a1 a2. split; [apply Hinj | intros ->; reflexivity].
  - intros a. unfold InterpolationUniform.name. split; [|split].
    + rewrite append_length. reflexivity.
    + apply substring_append_l.
    + exact (substring_append_r a "_t"%string).
  - split.
    + intros Hnd. induction Hnd as [| a l Hnotin Hnd IH]; cbn [map]; constructor.
      * intros Hin. apply in_map_iff in Hin as (a' & Heq & Hin').
        apply Hinj in Heq. subst a'. exact (Hnotin Hin').
      * exact IH.
    + apply NoDup_map_inv.
Qed.

End UniformNames.

(* ================================================================= *)
(** ** The binder set *)

Section BinderSet.
Context `{Collaborators} {S : Type}.
Variable properties : (PaintPropertyBinders.EvaluatedProperties S).
Variable z : R.

Lemma entry_populate (p : PaintPropertyBinders.Property S)
    (b : PaintPropertyBinder.t (PaintPropertyBinders.Value p))
    (feature : GeometryTileFeature) (length : nat) (statistics : S) :
  PaintPropertyBinders.builtFrom properties z (existT _ p b) ->
  let result :=
    @PaintPropertyBinder.populateVertexVector _ _ (PaintPropertyBinders.paintProperty p)
      b feature length statistics in
  PaintPropertyBinders.builtFrom properties z (existT _ p (fst result))
  /\ snd result = PaintPropertyBinders.recorded properties z feature statistics p
  /\ PaintPropertyBinder.isFunctionBinder (fst result)
     = PaintPropertyBinder.isFunctionBinder b
  /\ PaintPropertyBinder.vertexBuffer (fst result) = PaintPropertyBinder.vertexBuffer b
  /\ (PaintPropertyBinder.isFunctionBinder b = true ->
      vertexSize (PaintPropertyBinder.vertexVector (fst result))
      = Nat.max (vertexSize (PaintPropertyBinder.vertexVector b)) length)
  /\ (forall currentZoom : R,
        PaintPropertyBinder.interpolationFactor (fst result) currentZoom
        = PaintPropertyBinder.interpolationFactor b currentZoom).
Proof.
  unfold PaintPropertyBinders.builtFrom, PaintPropertyBinders.recorded.
  destruct (properties p) as [c | fn | fn]; destruct b as [bc | bs | bc];
    try contradiction; cbn.
  - intros Hc. repeat split; try assumption. discriminate.
  - intros [Hfn Hdef]. rewrite Hfn, Hdef.
    repeat split. intros _. apply emplace_back_until_size.
  - intros (Hfn & Hdef & Hcov). rewrite Hfn, Hdef, Hcov.
    repeat split.
    + intros _. apply emplace_back_until_size.
    + intros currentZoom.
      unfold CompositeFunctionPaintPropertyBinder.interpolationFactor.
      cbn [CompositeFunctionPaintPropertyBinder.coveringRanges].
      rewrite Hcov. reflexivity.
Qed.

Lemma entry_upload (p : PaintPropertyBinders.Property S)
    (b : PaintPropertyBinder.t (PaintPropertyBinders.Value p)) (context : gl_Context) :
  PaintPropertyBinders.builtFrom properties z (existT _ p b) ->
  let result := PaintPropertyBinder.upload b context in
  PaintPropertyBinders.builtFrom properties z (existT _ p (fst result))
  /\ PaintPropertyBinder.isFunctionBinder (fst result)
     = PaintPropertyBinder.isFunctionBinder b
  /\ (PaintPropertyBinder.isFunctionBinder b = true ->
      PaintPropertyBinder.vertexBuffer (fst result) <> None)
  /\ (forall currentZoom : R,
        PaintPropertyBinder.interpolationFactor (fst result) currentZoom
        = PaintPropertyBinder.interpolationFactor b currentZoom).
Proof.
  unfold PaintPropertyBinders.builtFrom.
  destruct (properties p) as [c | fn | fn]; destruct b as [bc | bs | bc];
    try contradiction; cbn [PaintPropertyBinder.upload].
  - intros Hc. cbn. repeat split; try assumption. discriminate.
  - intros [Hfn Hdef]. unfold SourceFunctionPaintPropertyBinder.upload.
    destruct (createVertexBuffer context (SourceFunctionPaintPropertyBinder.vertexVector bs))
      as [[context' buffer] moved]. cbn. repeat split; try assumption. discriminate.
  - intros (Hfn & Hdef & Hcov). unfold CompositeFunctionPaintPropertyBinder.upload.
    destruct (createVertexBuffer context (CompositeFunctionPaintPropertyBinder.vertexVector bc))
      as [[context' buffer] moved]. cbn. repeat split; try assumption. discriminate.
Qed.


Lemma built_factor (e : (PaintPropertyBinders.Entry S)) (currentZoom : R) :
  PaintPropertyBinders.builtFrom properties z e ->
  PaintPropertyBinder.interpolationFactor (projT2 e) currentZoom
  = PaintPropertyBinders.factorOf properties z currentZoom (PaintPropertyBinders.propertyOf e).
Proof.
  destruct e as [p b].
  unfold PaintPropertyBinders.builtFrom, PaintPropertyBinders.factorOf,
         PaintPropertyBinders.propertyOf.
  cbn [projT1 projT2].
  destruct (properties p) as [c | fn | fn]; destruct b as [bc | bs | bc];
    try contradiction; cbn [PaintPropertyBinder.interpolationFactor]; try reflexivity.
  intros (_ & _ & Hcov).
  unfold CompositeFunctionPaintPropertyBinder.interpolationFactor. rewrite Hcov. reflexivity.
Qed.

Lemma populateEach_spec (feature : GeometryTileFeature) (length : nat)
    (m : option nat) (uploaded : bool) (bs : list (PaintPropertyBinders.Entry S)) :
  forall statistics : S,
    Forall (PaintPropertyBinders.wellFormed properties z m uploaded) bs ->
    let result := PaintPropertyBinders.populateEach bs feature length statistics in
    Forall (PaintPropertyBinders.wellFormed properties z
              (option_map (fun n => Nat.max n length) m) uploaded) (fst result)
    /\ map PaintPropertyBinders.propertyOf (fst result)
       = map PaintPropertyBinders.propertyOf bs
    /\ snd result
       = fold_left (PaintPropertyBinders.recorded properties z feature)
                   (map PaintPropertyBinders.propertyOf bs) statistics.
Proof.
  induction bs as [| [p b] bs IH]; intros statistics Hall.
  - cbn. repeat split. constructor.
  - inversion Hall as [| e l (Hbuilt & Hkind & Hsize) Hrest]; subst.
    cbn [PaintPropertyBinders.populateEach].
    destruct (entry_populate p b feature length statistics Hbuilt)
      as (Hbuilt' & Hstat & Hfun & Hbuf & Hlen & _).
    destruct (@PaintPropertyBinder.populateVertexVector _ _
                (PaintPropertyBinders.paintProperty p) b feature length statistics)
      as [b' s1].
    cbn [fst snd] in Hbuilt', Hstat, Hfun, Hbuf, Hlen. subst s1.
    specialize (IH (PaintPropertyBinders.recorded properties z feature statistics p) Hrest).
    destruct (PaintPropertyBinders.populateEach bs feature length
                (PaintPropertyBinders.recorded properties z feature statistics p))
      as [rest' s2].
    cbn [fst snd] in IH |- *. destruct IH as (IHall & IHprops & IHstat).
    split; [|split].
    + constructor; [|exact IHall].
      unfold PaintPropertyBinders.wellFormed, PaintPropertyBinders.hasVertices,
             PaintPropertyBinders.sizeOf, PaintPropertyBinders.bufferOf,
             PaintPropertyBinders.propertyOf in *.
      cbn [projT1 projT2] in *.
      split; [exact Hbuilt'|]. split; [rewrite Hfun; exact Hkind|].
      rewrite Hfun, Hbuf. intros Hv. destruct (Hsize Hv) as [Hn Hup].
      split; [|exact Hup].
      intros n Hm. destruct m as [n0|]; [|discriminate Hm].
      injection Hm as <-. rewrite (Hlen Hv), (Hn n0 eq_refl). reflexivity.
    + cbn [map]. unfold PaintPropertyBinders.propertyOf at 1 3. cbn [projT1].
      f_equal. exact IHprops.
    + cbn [map fold_left]. unfold PaintPropertyBinders.propertyOf at 1. cbn [projT1].
      exact IHstat.
Qed.

Lemma uploadEach_spec (m : option nat) (uploaded : bool)
    (bs : list (PaintPropertyBinders.Entry S)) :
  forall context : gl_Context,
    Forall (PaintPropertyBinders.wellFormed properties z m uploaded) bs ->
    let result := PaintPropertyBinders.uploadEach bs context in
    Forall (PaintPropertyBinders.wellFormed properties z None true) (fst result)
    /\ map PaintPropertyBinders.propertyOf (fst result)
       = map PaintPropertyBinders.propertyOf bs.
Proof.
  induction bs as [| [p b] bs IH]; intros context Hall.
  - cbn. split; [constructor | reflexivity].
  - inversion Hall as [| e l (Hbuilt & Hkind & Hsize) Hrest]; subst.
    cbn [PaintPropertyBinders.uploadEach].
    destruct (entry_upload p b context Hbuilt) as (Hbuilt' & Hfun & Hbuf & _).
    destruct (PaintPropertyBinder.upload b context) as [b' c1].
    cbn [fst snd] in Hbuilt', Hfun, Hbuf.
    specialize (IH c1 Hrest).
    destruct (PaintPropertyBinders.uploadEach bs c1) as [rest' c2].
    cbn [fst snd] in IH |- *. destruct IH as (IHall & IHprops).
    split.
    + constructor; [|exact IHall].
      unfold PaintPropertyBinders.wellFormed, PaintPropertyBinders.hasVertices,
             PaintPropertyBinders.sizeOf, PaintPropertyBinders.bufferOf,
             PaintPropertyBinders.propertyOf in *.
      cbn [projT1 projT2] in *.
      split; [exact Hbuilt'|]. split; [rewrite Hfun; exact Hkind|].
      rewrite Hfun. intros Hv. split; [discriminate | exact (Hbuf Hv)].
    + cbn [map]. unfold PaintPropertyBinders.propertyOf at 1 3. cbn [projT1].
      f_equal. exact IHprops.
Qed.

Lemma make_spec (Ps : list (PaintPropertyBinders.Property S)) (statistics : S) :
  Forall (PaintPropertyBinders.wellFormed properties z (Some 0%nat) false)
         (PaintPropertyBinders.binders
            (PaintPropertyBinders.make Ps properties z statistics))
  /\ map PaintPropertyBinders.propertyOf
         (PaintPropertyBinders.binders
            (PaintPropertyBinders.make Ps properties z statistics)) = Ps.
Proof.
  cbn [PaintPropertyBinders.make PaintPropertyBinders.binders].
  induction Ps as [| p Ps [IHall IHprops]]; [split; [constructor | reflexivity]|].
  cbn [map]. split.
  - constructor; [|exact IHall].
    unfold PaintPropertyBinders.wellFormed, PaintPropertyBinders.builtFrom,
           PaintPropertyBinders.hasVertices, PaintPropertyBinders.sizeOf,
           PaintPropertyBinders.bufferOf, PaintPropertyBinders.propertyOf.
    cbn [projT1 projT2].
    destruct (properties p) as [c | fn | fn]; cbn; repeat split;
      try discriminate; intros n Hn; injection Hn as <-; reflexivity.
  - unfold PaintPropertyBinders.propertyOf at 1. cbn [projT1]. f_equal. exact IHprops.
Qed.

Lemma run_spec (Ps : list (PaintPropertyBinders.Property S))
    (calls : list PaintPropertyBinders.Call) :
  forall (m : option nat) (uploaded : bool) (set : PaintPropertyBinders.t S)
         (context : gl_Context),
    Forall (PaintPropertyBinders.wellFormed properties z m uploaded)
           (PaintPropertyBinders.binders set) ->
    map PaintPropertyBinders.propertyOf (PaintPropertyBinders.binders set) = Ps ->
    let set' := fst (PaintPropertyBinders.run calls (set, context)) in
    Forall (PaintPropertyBinders.wellFormed properties z
              (fold_left PaintPropertyBinders.lengthAfter calls m)
              (fold_left PaintPropertyBinders.uploadedAfter calls uploaded))
           (PaintPropertyBinders.binders set')
    /\ map PaintPropertyBinders.propertyOf (PaintPropertyBinders.binders set') = Ps.
Proof.
  induction calls as [| c calls IH]; intros m uploaded set context Hall Hprops.
  - cbn. split; assumption.
  - cbn [PaintPropertyBinders.run fold_left]. destruct c as [feature length |].
    + cbn [PaintPropertyBinders.step fst snd PaintPropertyBinders.lengthAfter
           PaintPropertyBinders.uploadedAfter].
      unfold PaintPropertyBinders.populateVertexVectors.
      destruct (populateEach_spec feature length m uploaded _
                  (PaintPropertyBinders.statistics set) Hall) as (Hall' & Hprops' & _).
      destruct (PaintPropertyBinders.populateEach (PaintPropertyBinders.binders set)
                  feature length (PaintPropertyBinders.statistics set)) as [bs s].
      cbn [fst snd] in Hall', Hprops'.
      apply IH; cbn [PaintPropertyBinders.binders]; [exact Hall' | congruence].
    + cbn [PaintPropertyBinders.step fst snd PaintPropertyBinders.lengthAfter
           PaintPropertyBinders.uploadedAfter].
      unfold PaintPropertyBinders.upload.
      destruct (uploadEach_spec m uploaded _ context Hall) as (Hall' & Hprops').
      destruct (PaintPropertyBinders.uploadEach (PaintPropertyBinders.binders set) context)
        as [bs c].
      cbn [fst snd] in Hall', Hprops'.
      apply IH; cbn [PaintPropertyBinders.binders]; [exact Hall' | congruence].
Qed.

End BinderSet.

Section BinderSetProperties.
Context `{Collaborators} {S : Type}.

Lemma lengthAfter_populate (calls : list (GeometryTileFeature * nat)) :
  forall n : nat,
    fold_left PaintPropertyBinders.lengthAfter
              (PaintPropertyBinders.populateAllCalls calls) (Some n)
    = Some (Nat.max n (list_max (map snd calls))).
Proof.
  induction calls as [| [feature length] calls IH]; intros n.
  - cbn. f_equal. lia.
  - cbn [PaintPropertyBinders.populateAllCalls map fold_left fst snd
         PaintPropertyBinders.lengthAfter option_map].
    unfold PaintPropertyBinders.populateAllCalls in IH. rewrite IH.
    f_equal. cbn [list_max fold_right].
    change (fold_right Nat.max 0%nat (map snd calls)) with (list_max (map snd calls)).
    lia.
Qed.

Lemma uploadedAfter_spec (calls : list (@PaintPropertyBinders.Call _)) :
  forall uploaded : bool,
    fold_left PaintPropertyBinders.uploadedAfter calls uploaded
    = uploaded || negb (forallb PaintPropertyBinders.isPopulateAll calls).
Proof.
  induction calls as [| c calls IH]; intros uploaded.
  - cbn. rewrite orb_false_r. reflexivity.
  - cbn [fold_left forallb]. rewrite IH. destruct c; cbn.
    + reflexivity.
    + rewrite orb_true_r. reflexivity.
Qed.

Lemma isPopulateAll_populateAllCalls (calls : list (GeometryTileFeature * nat)) :
  forallb PaintPropertyBinders.isPopulateAll
          (PaintPropertyBinders.populateAllCalls calls) = true.
Proof. induction calls as [| fl calls IH]; [reflexivity | exact IH]. Qed.

(** X7: in a set built for properties [Ps], after any sequence of
    [populateVertexVectors] calls there is still one binder per property,
    in the order of [Ps]; a property has a vertex sequence exactly when
    its evaluated value is not a constant, and all the vertex sequences of
    the set have the same length, the largest target length of the
    calls. *)
Theorem set_vertex_sequences_in_step
    (Ps : list (PaintPropertyBinders.Property S))
    (properties : (PaintPropertyBinders.EvaluatedProperties S)) (z : R) (statistics : S)
    (context : gl_Context) (calls : list (GeometryTileFeature * nat)) :
  let set :=
    fst (PaintPropertyBinders.run (PaintPropertyBinders.populateAllCalls calls)
           (PaintPropertyBinders.make Ps properties z statistics, context)) in
  map PaintPropertyBinders.propertyOf (PaintPropertyBinders.binders set) = Ps
  /\ forall e : (PaintPropertyBinders.Entry S),
       In e (PaintPropertyBinders.binders set) ->
       PaintPropertyBinders.hasVertices e
       = negb (isConstant (properties (PaintPropertyBinders.propertyOf e)))
       /\ (PaintPropertyBinders.hasVertices e = true ->
           PaintPropertyBinders.sizeOf e = list_max (map snd calls)
           /\ PaintPropertyBinders.bufferOf e = None).
Proof.
  intros set.
  destruct (make_spec properties z Ps statistics) as [Hall Hprops].
  destruct (run_spec properties z Ps (PaintPropertyBinders.populateAllCalls calls)
              (Some 0%nat) false _ context Hall Hprops) as [Hall' Hprops'].
  fold set in Hall', Hprops'.
  rewrite lengthAfter_populate, uploadedAfter_spec, isPopulateAll_populateAllCalls in Hall'.
  split; [exact Hprops'|].
  intros e Hin. rewrite Forall_forall in Hall'.
  destruct (Hall' e Hin) as (_ & Hkind & Hsize).
  split; [exact Hkind|]. intros Hv. destruct (Hsize Hv) as [Hn Hbuf].
  split; [apply Hn; reflexivity | exact Hbuf].
Qed.

(** X8: on a set built for properties [Ps], whatever calls came before,
    one [populateVertexVectors] call goes through the properties in the
    order of [Ps] and adds to the shared statistics one evaluated value
    for each source function, one evaluated range for each composite
    function and nothing for a constant; [upload] leaves the statistics
    as they are. *)
Theorem set_statistics_per_call
    (Ps : list (PaintPropertyBinders.Property S))
    (properties : (PaintPropertyBinders.EvaluatedProperties S)) (z : R) (statistics : S)
    (context : gl_Context) (calls : list PaintPropertyBinders.Call)
    (feature : GeometryTileFeature) (length : nat) :
  let st := PaintPropertyBinders.run calls
              (PaintPropertyBinders.make Ps properties z statistics, context) in
  PaintPropertyBinders.statistics
    (PaintPropertyBinders.populateVertexVectors (fst st) feature length)
  = fold_left (PaintPropertyBinders.recorded properties z feature) Ps
              (PaintPropertyBinders.statistics (fst st))
  /\ PaintPropertyBinders.statistics (fst (PaintPropertyBinders.upload (fst st) (snd st)))
     = PaintPropertyBinders.statistics (fst st).
Proof.
  intros st.
  destruct (make_spec properties z Ps statistics) as [Hall Hprops].
  destruct (run_spec properties z Ps calls (Some 0%nat) false _ context Hall Hprops)
    as [Hall' Hprops'].
  fold st in Hall', Hprops'. split.
  - unfold PaintPropertyBinders.populateVertexVectors.
    destruct (populateEach_spec properties z feature length _ _ _
                (PaintPropertyBinders.statistics (fst st)) Hall') as (_ & _ & Hstat).
    destruct (PaintPropertyBinders.populateEach
                (PaintPropertyBinders.binders (fst st)) feature length
                (PaintPropertyBinders.statistics (fst st))) as [bs s].
    cbn [fst snd PaintPropertyBinders.statistics] in *. rewrite Hstat, Hprops'. reflexivity.
  - unfold PaintPropertyBinders.upload.
    destruct (PaintPropertyBinders.uploadEach
                (PaintPropertyBinders.binders (fst st)) (snd st)) as [bs c].
    reflexivity.
Qed.

Lemma attributeBinding_None_iff {T : Type} `{PaintProperty T}
    (b : PaintPropertyBinder.t T) (currentValue : PossiblyEvaluatedPropertyValue T) :
  PaintPropertyBinder.attributeBinding b currentValue = None
  <-> (PaintPropertyBinder.isFunctionBinder b = true
       /\ isConstant currentValue = false
       /\ PaintPropertyBinder.vertexBuffer b = None).
Proof.
  destruct b as [bc | bs | bc]; cbn [PaintPropertyBinder.attributeBinding
    PaintPropertyBinder.isFunctionBinder PaintPropertyBinder.vertexBuffer].
  - split; [discriminate | intros (Hf & _); discriminate Hf].
  - unfold SourceFunctionPaintPropertyBinder.attributeBinding.
    destruct currentValue as [c | fn | fn]; cbn [isConstant constant];
      destruct (SourceFunctionPaintPropertyBinder.vertexBuffer bs);
      split; try discriminate; try (intros (_ & Hc & Hb); discriminate);
      intros _; repeat split.
  - unfold CompositeFunctionPaintPropertyBinder.attributeBinding.
    destruct currentValue as [c | fn | fn]; cbn [isConstant constant];
      destruct (CompositeFunctionPaintPropertyBinder.vertexBuffer bc);
      split; try discriminate; try (intros (_ & Hc & Hb); discriminate);
      intros _; repeat split.
Qed.

Lemma bindingsOf_defined (properties current : (PaintPropertyBinders.EvaluatedProperties S))
    (z : R) (m : option nat) (bs : list (PaintPropertyBinders.Entry S)) :
  Forall (PaintPropertyBinders.wellFormed properties z m true) bs ->
  exists bindings : list AttributeBinding,
    PaintPropertyBinders.bindingsOf bs current = Some bindings
    /\ List.length bindings = List.length bs.
Proof.
  induction bs as [| [p b] bs IH]; intros Hall.
  - exists []. split; reflexivity.
  - inversion Hall as [| e l (_ & _ & Hbuf) Hrest]; subst.
    destruct (IH Hrest) as (bindings & Hsome & Hlen).
    cbn [PaintPropertyBinders.bindingsOf]. rewrite Hsome.
    destruct (@PaintPropertyBinder.attributeBinding _ _
                (PaintPropertyBinders.paintProperty p) b (current p))
      as [binding|] eqn:Ebind.
    + exists (binding :: bindings). split; [reflexivity | cbn; rewrite Hlen; reflexivity].
    + exfalso. apply attributeBinding_None_iff in Ebind as (Hfun & _ & Hnone).
      unfold PaintPropertyBinders.hasVertices, PaintPropertyBinders.bufferOf in Hbuf.
      cbn [projT2] in Hbuf. destruct (Hbuf Hfun) as [_ Hsome']. exact (Hsome' Hnone).
Qed.

(** X9: once [upload] has run on a set built for properties [Ps],
    [attributeBindings] has a result for every choice of current
    properties: one binding per property, whatever calls came before or
    after the upload. *)
Theorem set_bindings_after_upload
    (Ps : list (PaintPropertyBinders.Property S))
    (properties currentProperties : (PaintPropertyBinders.EvaluatedProperties S)) (z : R)
    (statistics : S) (context : gl_Context) (calls : list PaintPropertyBinders.Call) :
  forallb PaintPropertyBinders.isPopulateAll calls = false ->
  exists bindings : list AttributeBinding,
    PaintPropertyBinders.attributeBindings
      (fst (PaintPropertyBinders.run calls
              (PaintPropertyBinders.make Ps properties z statistics, context)))
      currentProperties = Some bindings
    /\ List.length bindings = List.length Ps.
Proof.
  intros Hup.
  destruct (make_spec properties z Ps statistics) as [Hall Hprops].
  destruct (run_spec properties z Ps calls (Some 0%nat) false _ context Hall Hprops)
    as [Hall' Hprops'].
  rewrite uploadedAfter_spec, Hup in Hall'. cbn [negb orb] in Hall'.
  destruct (bindingsOf_defined properties currentProperties z _ _ Hall')
    as (bindings & Hsome & Hlen).
  exists bindings. split; [exact Hsome|].
  rewrite Hlen, <- (length_map PaintPropertyBinders.propertyOf), Hprops'. reflexivity.
Qed.

Lemma bindingsOf_before_upload
    (properties current : (PaintPropertyBinders.EvaluatedProperties S))
    (z : R) (m : option nat) (bs : list (PaintPropertyBinders.Entry S)) :
  Forall (PaintPropertyBinders.wellFormed properties z m false) bs ->
  PaintPropertyBinders.bindingsOf bs current = None
  <-> exists p : PaintPropertyBinders.Property S,
        In p (map PaintPropertyBinders.propertyOf bs)
        /\ isConstant (properties p) = false
        /\ isConstant (current p) = false.
Proof.
  induction bs as [| [p b] bs IH]; intros Hall.
  - cbn. split; [discriminate | intros (p & [] & _)].
  - inversion Hall as [| e l (_ & Hkind & Hbuf) Hrest]; subst.
    specialize (IH Hrest).
    unfold PaintPropertyBinders.hasVertices, PaintPropertyBinders.bufferOf,
           PaintPropertyBinders.propertyOf in Hkind, Hbuf.
    cbn [projT1 projT2] in Hkind, Hbuf.
    cbn [PaintPropertyBinders.bindingsOf map].
    unfold PaintPropertyBinders.propertyOf at 1. cbn [projT1].
    destruct (@PaintPropertyBinder.attributeBinding _ _
                (PaintPropertyBinders.paintProperty p) b (current p))
      as [binding|] eqn:Ebind.
    + destruct (PaintPropertyBinders.bindingsOf bs current) as [bindings|].
      * split; [discriminate|].
        intros (q & [Heq | Hin] & Hq & Hc); exfalso.
        -- subst q.
           assert (Hnone : @PaintPropertyBinder.attributeBinding _ _
                             (PaintPropertyBinders.paintProperty p) b (current p) = None).
           { apply attributeBinding_None_iff.
             assert (Hfun : PaintPropertyBinder.isFunctionBinder b = true)
               by (rewrite Hkind, Hq; reflexivity).
             destruct (Hbuf Hfun) as [_ Hb]. repeat split; assumption. }
           rewrite Hnone in Ebind. discriminate Ebind.
        -- assert (Hnone : Some bindings = None)
             by (apply IH; exists q; repeat split; assumption).
           discriminate Hnone.
      * split; [|reflexivity]. intros _.
        destruct (proj1 IH eq_refl) as (q & Hin & Hq & Hc).
        exists q. split; [right; exact Hin | split; assumption].
    + split; [|reflexivity]. intros _.
      apply attributeBinding_None_iff in Ebind as (Hfun & Hc & _).
      exists p. split; [left; reflexivity|]. split; [|exact Hc].
      rewrite Hkind in Hfun. apply negb_true_iff in Hfun. exact Hfun.
Qed.

(** X10: before any upload, [attributeBindings] on a set built for
    properties [Ps] has no defined result exactly when some property of
    [Ps] was built from a function and its current value is not a
    constant: that binder has no buffer to bind. *)
Theorem set_bindings_before_upload
    (Ps : list (PaintPropertyBinders.Property S))
    (properties currentProperties : (PaintPropertyBinders.EvaluatedProperties S)) (z : R)
    (statistics : S) (context : gl_Context) (calls : list (GeometryTileFeature * nat)) :
  PaintPropertyBinders.attributeBindings
    (fst (PaintPropertyBinders.run (PaintPropertyBinders.populateAllCalls calls)
            (PaintPropertyBinders.make Ps properties z statistics, context)))
    currentProperties = None
  <-> exists p : PaintPropertyBinders.Property S,
        In p Ps
        /\ isConstant (properties p) = false
        /\ isConstant (currentProperties p) = false.
Proof.
  destruct (make_spec properties z Ps statistics) as [Hall Hprops].
  destruct (run_spec properties z Ps (PaintPropertyBinders.populateAllCalls calls)
              (Some 0%nat) false _ context Hall Hprops) as [Hall' Hprops'].
  rewrite uploadedAfter_spec, isPopulateAll_populateAllCalls in Hall'.
  cbn [negb orb] in Hall'.
  unfold PaintPropertyBinders.attributeBindings.
  rewrite (bindingsOf_before_upload properties currentProperties z _ _ Hall'), Hprops'.
  reflexivity.
Qed.

(** X11: at every moment of the life of a set built for properties [Ps]
    at zoom [z], [uniformValues] yields one uniform per property in the
    order of [Ps], named by the property's attribute name followed by
    [_t]; its value is 0 for a property evaluated to a constant or to a
    source function, and for a composite function the linear factor of
    the current zoom in the bracket covering [z]. *)
Theorem set_uniformValues
    (Ps : list (PaintPropertyBinders.Property S))
    (properties : (PaintPropertyBinders.EvaluatedProperties S)) (z : R) (statistics : S)
    (context : gl_Context) (calls : list PaintPropertyBinders.Call) (currentZoom : R) :
  PaintPropertyBinders.uniformValues
    (fst (PaintPropertyBinders.run calls
            (PaintPropertyBinders.make Ps properties z statistics, context)))
    currentZoom
  = map (fun p : PaintPropertyBinders.Property S =>
           (InterpolationUniform.name (PaintPropertyBinders.attributeName p),
            PaintPropertyBinders.factorOf properties z currentZoom p))
        Ps.
Proof.
  destruct (make_spec properties z Ps statistics) as [Hall Hprops].
  destruct (run_spec properties z Ps calls (Some 0%nat) false _ context Hall Hprops)
    as [Hall' Hprops'].
  unfold PaintPropertyBinders.uniformValues.
  rewrite <- Hprops' at 2. rewrite map_map.
  apply map_ext_in. intros e Hin. rewrite Forall_forall in Hall'.
  destruct (Hall' e Hin) as (Hbuilt & _ & _).
  rewrite (built_factor properties z e currentZoom Hbuilt). reflexivity.
Qed.

End BinderSetProperties.

(* ================================================================= *)
(** ** The further properties on the concrete instances *)

Section ExtrasOnDemo.
#[local] Existing Instance Demo.collaborators.
#[local] Existing Instance Demo.scalar.

Lemma composite_populate_pairs_witness :
  let b := CompositeFunctionPaintPropertyBinder.make Demo.compositeFn 1%R zero in
  let range :=
    CompositeFunction.evaluate (CompositeFunctionPaintPropertyBinder.function b)
      (snd (CompositeFunctionPaintPropertyBinder.coveringRanges b)) 0%nat
      (CompositeFunctionPaintPropertyBinder.defaultValue b) in
  let result :=
    CompositeFunctionPaintPropertyBinder.populateVertexVector b 0%nat 2%nat
      (Demo.statisticsOf []) in
  List.length (attributeValue (Range.min range))
  = List.length (attributeValue (Range.max range))
  /\ snd result = Demo.statisticsOf [of_int 7; of_int 9]
  /\ CompositeFunctionPaintPropertyBinder.vertexVector (fst result)
     = [[of_int 7; of_int 9]; [of_int 7; of_int 9]].
Proof.
  intros b range result.
  assert (Hwidth : List.length (attributeValue (Range.min range))
                   = List.length (attributeValue (Range.max range))) by reflexivity.
  destruct (composite_populate_pairs b 0%nat 2%nat (Demo.statisticsOf []) Hwidth)
    as (Hstat & _ & _ & appended & Hvec & _ & _).
  split; [exact Hwidth|]. split.
  - unfold result. rewrite Hstat. reflexivity.
  - reflexivity.
Defined.

Lemma upload_stores_populated_witness :
  isConstant (SourceFn Demo.sourceFn) = false
  /\ (let st := PaintPropertyBinder.run (PaintPropertyBinder.populateCalls Demo.features)
                  (PaintPropertyBinder.create (SourceFn Demo.sourceFn) 1%R zero,
                   Demo.statisticsOf [], Demo.context0) in
      let populated := PaintPropertyBinder.vertexVector (PaintPropertyBinder.binderOf st) in
      let after := PaintPropertyBinder.step st PaintPropertyBinder.Upload in
      vertexSize populated = list_max (map snd Demo.features)
      /\ PaintPropertyBinder.vertexBuffer (PaintPropertyBinder.binderOf after)
         = Some (snd (fst (createVertexBuffer Demo.context0 populated)))
      /\ PaintPropertyBinder.vertexVector (PaintPropertyBinder.binderOf after)
         = snd (createVertexBuffer Demo.context0 populated)
      /\ snd after = fst (fst (createVertexBuffer Demo.context0 populated))
      /\ snd (fst after) = snd (fst st)).
Proof.
  split; [reflexivity|].
  apply (upload_stores_populated (SourceFn Demo.sourceFn) 1%R zero Demo.features
           (Demo.statisticsOf []) Demo.context0).
  reflexivity.
Defined.

Lemma set_bindings_after_upload_witness :
  forallb PaintPropertyBinders.isPopulateAll DemoSet.populateThenUpload = false
  /\ exists bindings : list AttributeBinding,
       PaintPropertyBinders.attributeBindings
         (fst (PaintPropertyBinders.run DemoSet.populateThenUpload
                 (PaintPropertyBinders.make [DemoSet.width; DemoSet.opacity]
                    DemoSet.evaluated 1%R [], Demo.context0)))
         DemoSet.evaluated = Some bindings
       /\ List.length bindings = List.length [DemoSet.width; DemoSet.opacity].
Proof.
  split; [reflexivity|].
  apply (set_bindings_after_upload [DemoSet.width; DemoSet.opacity]
           DemoSet.evaluated DemoSet.evaluated 1%R [] Demo.context0
           DemoSet.populateThenUpload).
  reflexivity.
Defined.

End ExtrasOnDemo.
